(** * The Xweather MCP client and the tool-calling loop of the assistant

    A shallow embedding of [src/mcp_client.py] (class [MCP]) and of
    [src/weather_assistant.py] ([to_openai_tools], [extract_text],
    [build_clients], class [WeatherAssistant]), and the properties of the
    specification and of the code proved about it.

    Text.  A Python [str] is a [string]; each character stands for the code
    point of the same number, so the development covers text whose code
    points lie below 256.  The character classes of [str.isspace],
    [str.splitlines], [str.lower] and [repr] are written out for that range.

    Library boundary.  [json.loads], the HTTP transport ([httpx]) and the
    chat-completion backend are not code of the repository: they are
    variables of the sections below, and every theorem holds whatever
    they do.  [json.dumps] and [str()] are total functions on the values
    handled here and are written out. *)

From Stdlib Require Import String Ascii List ZArith Lia Bool.
From Stdlib Require Import DecimalString.
Import ListNotations.

Open Scope list_scope.
Open Scope string_scope.

(** ** Results of fallible code *)

Inductive result (E A : Type) : Type :=
| Ok (a : A)
| Raise (e : E).
Arguments Ok {E A} a.
Arguments Raise {E A} e.

(** ** Python's built-in string operations *)

Module Py.

Definition LF : ascii := "010"%char.
Definition CR : ascii := "013"%char.
Definition nl : string := String LF "".
Definition dq : string := String "034"%char "".

(** [str.isspace] on one character, code points below 256. *)
Definition is_space (c : ascii) : bool :=
  let n := nat_of_ascii c in
  (((9 <=? n) && (n <=? 13)) || ((28 <=? n) && (n <=? 32))
   || (n =? 133) || (n =? 160))%nat.

(** The line boundaries of [str.splitlines], code points below 256. *)
Definition is_linebreak (c : ascii) : bool :=
  let n := nat_of_ascii c in
  (((10 <=? n) && (n <=? 13)) || ((28 <=? n) && (n <=? 30))
   || (n =? 133))%nat.

(** [s.splitlines()]: the lines of [s] without their terminators; a
    carriage return followed by a line feed is one terminator, and a
    terminator at the very end opens no further line. *)
Fixpoint splitlines (s : string) : list string :=
  match s with
  | EmptyString => []
  | String c rest =>
      if is_linebreak c then
        EmptyString ::
          match rest with
          | String c' rest' =>
              if Ascii.eqb c CR && Ascii.eqb c' LF
              then splitlines rest' else splitlines rest
          | EmptyString => []
          end
      else
        match splitlines rest with
        | [] => [String c EmptyString]
        | l :: ls => String c l :: ls
        end
  end.

(** [s.startswith(p)] *)
Definition startswith (p s : string) : bool := String.prefix p s.

(** [s[n:]] and [s[:n]] *)
Fixpoint drop (n : nat) (s : string) : string :=
  match n, s with
  | O, _ => s
  | S n', String _ rest => drop n' rest
  | S _, EmptyString => EmptyString
  end.

Fixpoint take (n : nat) (s : string) : string :=
  match n, s with
  | O, _ => EmptyString
  | S n', String c rest => String c (take n' rest)
  | S _, EmptyString => EmptyString
  end.

(** [s.lstrip()], [s.rstrip()], [s.strip()] *)
Fixpoint lstrip (s : string) : string :=
  match s with
  | String c rest => if is_space c then lstrip rest else s
  | EmptyString => EmptyString
  end.

Fixpoint rstrip (s : string) : string :=
  match s with
  | EmptyString => EmptyString
  | String c rest =>
      match rstrip rest with
      | EmptyString => if is_space c then EmptyString else String c EmptyString
      | r => String c r
      end
  end.

Definition strip (s : string) : string := lstrip (rstrip s).

(** [sep.join(parts)] *)
Definition join (sep : string) (parts : list string) : string :=
  String.concat sep parts.

(** [sub in s] *)
Fixpoint contains (sub s : string) : bool :=
  String.prefix sub s
  || match s with
     | String _ rest => contains sub rest
     | EmptyString => false
     end.

(** [s.lower()], code points below 256: the letters A to Z and the
    capital letters of the range 192 to 222 (the sign 215 apart). *)
Definition lower_char (c : ascii) : ascii :=
  let n := nat_of_ascii c in
  if (((65 <=? n) && (n <=? 90))
      || ((192 <=? n) && (n <=? 222) && negb (n =? 215)))%nat
  then ascii_of_nat (n + 32) else c.

Fixpoint lower (s : string) : string :=
  match s with
  | EmptyString => EmptyString
  | String c rest => String (lower_char c) (lower rest)
  end.

(** [str(n)] for an integer *)
Definition str_of_Z (z : Z) : string := NilZero.string_of_int (Z.to_int z).

End Py.

(** ** JSON documents as Python values *)

(** A Python float, as far as the program observes one: its truth value,
    its [repr] and the text [json.dumps] writes for it. *)
Record pyfloat : Type := mk_pyfloat {
  float_nonzero : bool;
  float_repr : string;
  float_json : string
}.

(** The values [json.loads] builds.  A dict keeps its items in insertion
    order; [dict_get] reads the first item with the key. *)
#[warnings="-register-all"]
Inductive json : Type :=
| JNull
| JBool (b : bool)
| JInt (z : Z)
| JFloat (f : pyfloat)
| JStr (s : string)
| JList (items : list json)
| JDict (items : list (string * json)).

Definition dict : Type := list (string * json).

Fixpoint dict_get (k : string) (d : dict) : option json :=
  match d with
  | [] => None
  | (k', v) :: d' => if String.eqb k k' then Some v else dict_get k d'
  end.

(** [d.get(k)] and [d.get(k, default)] *)
Definition get (k : string) (d : dict) : json :=
  match dict_get k d with Some v => v | None => JNull end.

Definition get_default (k : string) (default : json) (d : dict) : json :=
  match dict_get k d with Some v => v | None => default end.

(** Truth value of a value, as [if v:] and [v or w] test it. *)
Definition truthy (v : json) : bool :=
  match v with
  | JNull => false
  | JBool b => b
  | JInt z => negb (Z.eqb z 0)
  | JFloat f => float_nonzero f
  | JStr s => negb (String.eqb s "")
  | JList l => match l with [] => false | _ => true end
  | JDict d => match d with [] => false | _ => true end
  end.

Definition type_name (v : json) : string :=
  match v with
  | JNull => "NoneType"
  | JBool _ => "bool"
  | JInt _ => "int"
  | JFloat _ => "float"
  | JStr _ => "str"
  | JList _ => "list"
  | JDict _ => "dict"
  end.

Module Fmt.

Definition hex_digit (n : nat) : ascii :=
  if (n <? 10)%nat then ascii_of_nat (48 + n) else ascii_of_nat (87 + n).

Definition hex2 (c : ascii) : string :=
  let n := nat_of_ascii c in
  String (hex_digit (n / 16)) (String (hex_digit (n mod 16)) "").

(** One character inside a JSON string, [ensure_ascii] on. *)
Definition json_escape_char (c : ascii) : string :=
  let n := nat_of_ascii c in
  if (n =? 34)%nat then "\" ++ Py.dq
  else if (n =? 92)%nat then "\\"
  else if (n =? 10)%nat then "\n"
  else if (n =? 13)%nat then "\r"
  else if (n =? 9)%nat then "\t"
  else if (n =? 8)%nat then "\b"
  else if (n =? 12)%nat then "\f"
  else if ((32 <=? n) && (n <=? 126))%nat then String c ""
  else "\u00" ++ hex2 c.

Fixpoint json_escape (s : string) : string :=
  match s with
  | EmptyString => EmptyString
  | String c rest => json_escape_char c ++ json_escape rest
  end.

Definition json_string (s : string) : string :=
  Py.dq ++ json_escape s ++ Py.dq.

Fixpoint spaces (n : nat) : string :=
  match n with O => EmptyString | S n' => String " " (spaces n') end.

Definition newline_indent (level : nat) : string :=
  Py.nl ++ spaces (2 * level).

(** [json.dumps(v, indent=2)], written for nesting depth [level]. *)
Fixpoint dumps_at (level : nat) (v : json) : string :=
  match v with
  | JNull => "null"
  | JBool true => "true"
  | JBool false => "false"
  | JInt z => Py.str_of_Z z
  | JFloat f => float_json f
  | JStr s => json_string s
  | JList [] => "[]"
  | JList l =>
      "[" ++ newline_indent (S level)
      ++ Py.join ("," ++ newline_indent (S level)) (map (dumps_at (S level)) l)
      ++ newline_indent level ++ "]"
  | JDict [] => "{}"
  | JDict d =>
      "{" ++ newline_indent (S level)
      ++ Py.join ("," ++ newline_indent (S level))
           (map (fun kv => match kv with
                           | (k, x) => json_string k ++ ": " ++ dumps_at (S level) x
                           end) d)
      ++ newline_indent level ++ "}"
  end.

Definition json_dumps (v : json) : string := dumps_at 0 v.

(** [repr] of a string: single quotes unless the text holds one and no
    double quote; code points that are not printable are written [\xhh]. *)
Definition printable (c : ascii) : bool :=
  let n := nat_of_ascii c in
  (((32 <=? n) && (n <=? 126))
   || ((161 <=? n) && negb (n =? 173)))%nat.

Definition repr_char (quote c : ascii) : string :=
  let n := nat_of_ascii c in
  if Ascii.eqb c quote || (n =? 92)%nat then String "\" (String c "")
  else if (n =? 9)%nat then "\t"
  else if (n =? 10)%nat then "\n"
  else if (n =? 13)%nat then "\r"
  else if printable c then String c ""
  else "\x" ++ hex2 c.

Fixpoint repr_chars (quote : ascii) (s : string) : string :=
  match s with
  | EmptyString => EmptyString
  | String c rest => repr_char quote c ++ repr_chars quote rest
  end.

Definition repr_str (s : string) : string :=
  let quote :=
    if Py.contains "'" s && negb (Py.contains Py.dq s)
    then "034"%char else "'"%char in
  String quote (repr_chars quote s) ++ String quote "".

Fixpoint repr (v : json) : string :=
  match v with
  | JNull => "None"
  | JBool true => "True"
  | JBool false => "False"
  | JInt z => Py.str_of_Z z
  | JFloat f => float_repr f
  | JStr s => repr_str s
  | JList l => "[" ++ Py.join ", " (map repr l) ++ "]"
  | JDict d =>
      "{" ++ Py.join ", "
               (map (fun kv => match kv with
                               | (k, x) => repr_str k ++ ": " ++ repr x
                               end) d)
      ++ "}"
  end.

(** [str(v)], as an f-string formats a value. *)
Definition str (v : json) : string :=
  match v with
  | JStr s => s
  | _ => repr v
  end.

(** A JSON text written with ['] where the text has a double quote. *)
Fixpoint js (s : string) : string :=
  match s with
  | EmptyString => EmptyString
  | String c rest =>
      String (if Ascii.eqb c "'"%char then "034"%char else c) (js rest)
  end.

End Fmt.

(** ** Exceptions *)

(** The exceptions the program raises or lets through, each with the
    text [str(e)] gives.  [BackendError] stands for whatever the
    chat-completion client raises. *)
Inductive exn : Type :=
| MCPError (msg : string)
| AttributeError (msg : string)
| TypeError (msg : string)
| BackendError (msg : string).

Definition exn_str (e : exn) : string :=
  match e with
  | MCPError m | AttributeError m | TypeError m | BackendError m => m
  end.

Definition bind {E A B : Type} (r : result E A) (k : A -> result E B)
  : result E B :=
  match r with
  | Ok a => k a
  | Raise e => Raise e
  end.

(** ** The wire: HTTP requests and responses *)

Record request : Type := mk_request {
  req_url : string;
  req_json : json;
  req_headers : list (string * string)
}.

(** An [httpx.Response]: [content_type] is
    [r.headers.get("Content-Type")], absent when [None]. *)
Record response : Type := mk_response {
  status_code : Z;
  content_type : option string;
  text : string
}.

(** [{**base, **extra}] on string dicts: a key of [extra] already in
    [base] keeps its place and takes the new value. *)
Fixpoint header_set (k v : string) (h : list (string * string))
  : list (string * string) :=
  match h with
  | [] => [(k, v)]
  | (k', v') :: h' =>
      if String.eqb k k' then (k, v) :: h' else (k', v') :: header_set k v h'
  end.

Definition header_merge (base extra : list (string * string))
  : list (string * string) :=
  fold_left (fun h kv => header_set (fst kv) (snd kv) h) extra base.

(** ** class MCP (mcp_client.py) *)

(** [http] is the [httpx.Client] of the instance, observed through the
    requests posted with it, oldest first. *)
Record MCP : Type := mk_MCP {
  url : string;
  _id : Z;
  http : list request;
  extra_headers : list (string * string)
}.

(** [MCP.__init__] *)
Definition MCP_init (u : string) (headers : option (list (string * string)))
  : MCP :=
  {| url := u;
     _id := 0;
     http := [];
     extra_headers := match headers with Some h => h | None => [] end |}.

(** [MCP._next_id] *)
Definition _next_id (self : MCP) : Z * MCP :=
  let self' := {| url := url self;
                  _id := _id self + 1;
                  http := http self;
                  extra_headers := extra_headers self |} in
  (_id self', self').

(** [MCP._unwrap_jsonrpc] *)
Definition _unwrap_jsonrpc (doc : json) : result exn dict :=
  let invalid :=
    Raise (MCPError ("Invalid JSON-RPC envelope:" ++ Py.nl
                     ++ Py.take 800 (Fmt.json_dumps doc))) in
  match doc with
  | JDict d =>
      match dict_get "jsonrpc" d with
      | Some (JStr v) =>
          if String.eqb v "2.0" then
            if truthy (get "error" d) then
              match get "error" d with
              | JDict err =>
                  Raise (MCPError ("MCP error " ++ Fmt.str (get "code" err)
                                   ++ ": " ++ Fmt.str (get "message" err)))
              | other =>
                  Raise (AttributeError
                           ("'" ++ type_name other
                            ++ "' object has no attribute 'get'"))
              end
            else
              match get "result" d with
              | JDict res => Ok res
              | _ => Raise (MCPError "Missing/invalid result in JSON-RPC response")
              end
          else invalid
      | _ => invalid
      end
  | _ => invalid
  end.

(** *** The event-stream scan of [MCP._parse_sse_to_json] *)

(** [line[5:].lstrip()] *)
Definition data_payload (line : string) : string :=
  Py.lstrip (Py.drop 5 line).

(** The two local variables of the scan. *)
Record sse_state : Type := mk_sse {
  data_buf : list string;
  last_data : option string
}.

Definition sse_init : sse_state := {| data_buf := []; last_data := None |}.

(** The body of [for line in text]. *)
Definition sse_step (st : sse_state) (line : string) : sse_state :=
  if Py.startswith ":" line then st
  else if Py.startswith "data:" line then
    {| data_buf := data_buf st ++ [data_payload line];
       last_data := last_data st |}
  else if String.eqb (Py.strip line) "" then
    match data_buf st with
    | [] => st
    | _ :: _ =>
        {| data_buf := []; last_data := Some (Py.join Py.nl (data_buf st)) |}
    end
  else st.

(** The scan and the capture of trailing data: the value of [last_data]
    when the function reaches [if not last_data]. *)
Definition sse_last_data (body : string) : option string :=
  let st := fold_left sse_step (Py.splitlines body) sse_init in
  match data_buf st with
  | [] => last_data st
  | _ :: _ => Some (Py.join Py.nl (data_buf st))
  end.

Definition NO_DATA : string := "SSE response contained no 'data:' payload".

Section Client.

(** [json.loads]: the document, or the text of the [JSONDecodeError].
    A text on which the interpreter gives up for a limit of its own (a
    [RecursionError] on deep nesting, a [ValueError] on an integer of
    more than 4300 digits) and a body whose bytes do not decode are not
    part of this model: the [except json.JSONDecodeError] clauses would
    let those exceptions through. *)
Variable json_loads : string -> result string json.

(** [httpx.Client.post]: the response, or the text of the
    [httpx.HTTPError]. *)
Variable http_post : request -> result string response.

(** [MCP._parse_sse_to_json], on the text of the response. *)
Definition _parse_sse_to_json (body : string) : result exn json :=
  match sse_last_data body with
  | None => Raise (MCPError NO_DATA)
  | Some last =>
      if String.eqb last "" then Raise (MCPError NO_DATA)
      else
        match json_loads last with
        | Ok doc => Ok doc
        | Raise e => Raise (MCPError ("SSE 'data' not valid JSON: " ++ e))
        end
  end.

(** [r.text[:600] if r.text else "<empty body>"] *)
Definition body_preview (r : response) : string :=
  if String.eqb (text r) "" then "<empty body>" else Py.take 600 (text r).

(** [MCP._rpc] from the status check on: what the call makes of the
    response it received. *)
Definition _rpc_response (r : response) : result exn dict :=
  if (status_code r <? 200)%Z || (300 <=? status_code r)%Z then
    Raise (MCPError ("HTTP " ++ Py.str_of_Z (status_code r)
                     ++ " from MCP; body preview:" ++ Py.nl ++ body_preview r))
  else
    let ctype :=
      Py.lower (match content_type r with Some c => c | None => "" end) in
    if Py.contains "application/json" ctype then
      match json_loads (text r) with
      | Raise e =>
          Raise (MCPError ("Invalid JSON from MCP: " ++ e ++ Py.nl
                           ++ "Body preview:" ++ Py.nl ++ Py.take 600 (text r)))
      | Ok doc => _unwrap_jsonrpc doc
      end
    else if Py.contains "text/event-stream" ctype then
      match _parse_sse_to_json (text r) with
      | Raise (MCPError m) => Raise (MCPError m)
      | Raise e =>
          Raise (MCPError ("Failed to parse SSE: " ++ exn_str e ++ Py.nl
                           ++ "Body preview:" ++ Py.nl ++ Py.take 600 (text r)))
      | Ok doc => _unwrap_jsonrpc doc
      end
    else
      (* try: doc = r.json(); return self._unwrap_jsonrpc(doc)
         except Exception: ... *)
      let unexpected :=
        Raise (MCPError ("Unexpected Content-Type '" ++ ctype
                         ++ "'. Body preview:" ++ Py.nl ++ body_preview r)) in
      match json_loads (text r) with
      | Raise _ => unexpected
      | Ok doc =>
          match _unwrap_jsonrpc doc with
          | Ok res => Ok res
          | Raise _ => unexpected
          end
      end.

(** [params or {}] *)
Definition params_or_empty (params : option json) : json :=
  match params with
  | Some p => if truthy p then p else JDict []
  | None => JDict []
  end.

(** [MCP._rpc]: the result or the exception, and the instance after the
    call. *)
Definition _rpc (method : string) (params : option json) (self : MCP)
  : result exn dict * MCP :=
  let (i, self1) := _next_id self in
  let payload :=
    JDict [("jsonrpc", JStr "2.0"); ("id", JInt i);
           ("method", JStr method); ("params", params_or_empty params)] in
  let req :=
    {| req_url := url self1;
       req_json := payload;
       req_headers :=
         header_merge
           [("Content-Type", "application/json");
            ("Accept", "application/json, text/event-stream");
            ("Connection", "keep-alive")]
           (extra_headers self1) |} in
  let self2 := {| url := url self1;
                  _id := _id self1;
                  http := (http self1 ++ [req])%list;
                  extra_headers := extra_headers self1 |} in
  match http_post req with
  | Raise e => (Raise (MCPError ("Network error contacting MCP: " ++ e)), self2)
  | Ok r => (_rpc_response r, self2)
  end.

(** [MCP.list_tools] *)
Definition list_tools (self : MCP) : result exn (list json) * MCP :=
  let (r, self') := _rpc "tools/list" None self in
  match r with
  | Raise e => (Raise e, self')
  | Ok res =>
      match get_default "tools" (JList []) res with
      | JList tools => (Ok tools, self')
      | _ =>
          (Raise (MCPError ("Invalid tools/list shape:" ++ Py.nl
                            ++ Py.take 800 (Fmt.json_dumps (JDict res)))),
           self')
      end
  end.

(** [MCP.call_tool] *)
Definition call_tool (name : string) (arguments : json) (self : MCP)
  : result exn dict * MCP :=
  _rpc "tools/call"
       (Some (JDict [("name", JStr name); ("arguments", arguments)])) self.

End Client.

(** ** weather_assistant.py *)

(** [for c in content]: the items a value yields when iterated. *)
Fixpoint chars (s : string) : list json :=
  match s with
  | EmptyString => []
  | String c rest => JStr (String c "") :: chars rest
  end.

Definition iterate (v : json) : result exn (list json) :=
  match v with
  | JList l => Ok l
  | JDict d => Ok (map (fun kv => JStr (fst kv)) d)
  | JStr s => Ok (chars s)
  | other => Raise (TypeError ("'" ++ type_name other ++ "' object is not iterable"))
  end.

(** [isinstance(c, dict) and c.get("type") == "text"] *)
Definition is_text_part (c : json) : bool :=
  match c with
  | JDict d =>
      match dict_get "type" d with
      | Some (JStr t) => String.eqb t "text"
      | _ => false
      end
  | _ => false
  end.

(** [c.get("text", "")] for a part that passed the test *)
Definition part_text (c : json) : json :=
  match c with
  | JDict d => get_default "text" (JStr "") d
  | _ => JStr ""
  end.

(** ["\n".join(values)]: every item has to be a [str]. *)
Fixpoint join_values (i : nat) (values : list json) : result exn (list string) :=
  match values with
  | [] => Ok []
  | JStr s :: rest =>
      bind (join_values (S i) rest) (fun ss => Ok (s :: ss))
  | other :: _ =>
      Raise (TypeError ("sequence item " ++ Py.str_of_Z (Z.of_nat i)
                        ++ ": expected str instance, " ++ type_name other
                        ++ " found"))
  end.

(** [extract_text] *)
Definition extract_text (tool_result : dict) : result exn string :=
  bind (iterate (get_default "content" (JList []) tool_result)) (fun content =>
  let parts := map part_text (filter is_text_part content) in
  bind (join_values 0 (filter truthy parts)) (fun kept =>
  let joined := Py.join Py.nl kept in
  if String.eqb joined "" then Ok (Fmt.json_dumps (JDict tool_result))
  else Ok joined)).

(** A tool call the backend requests: [tc.id], [tc.function.name],
    [tc.function.arguments]. *)
Record tool_call : Type := mk_tool_call {
  tc_id : string;
  tc_name : string;
  tc_arguments : string
}.

(** The assistant message of a completion, [resp.choices[0].message]. *)
Record chat_message : Type := mk_chat_message {
  content : option string;
  tool_calls : option (list tool_call)
}.

(** An entry of [messages]: a dict the loop builds, or the message object
    of the backend appended as it came. *)
Inductive message : Type :=
| RoleMsg (role : string) (body : string)
| ToolMsg (tool_call_id : string) (body : string)
| BackendMsg (m : chat_message).

(** The arguments of one [chat.completions.create] call; [messages] is
    the list as it stood when the call was made. *)
Record chat_request : Type := mk_chat_request {
  cr_model : string;
  cr_messages : list message;
  cr_tools : list json;
  cr_tool_choice : option string
}.

(** [client] is the OpenAI client of the instance, observed through the
    completion calls made with it, oldest first.  [verbose] only turns
    printing on and is left out with [_log]. *)
Record WeatherAssistant : Type := mk_WeatherAssistant {
  client : list chat_request;
  mcp : MCP;
  oa_tools : list json
}.

Definition SYSTEM_PROMPT : string :=
  "You are a helpful weather assistant with access to Xweather tools.".

(** [getattr(msg, "tool_calls", None)], tested for truth *)
Definition requested_calls (msg : chat_message) : list tool_call :=
  match tool_calls msg with Some l => l | None => [] end.

(** [msg.content or "(no content)"] *)
Definition content_or_placeholder (msg : chat_message) : string :=
  match content msg with
  | Some c => if String.eqb c "" then "(no content)" else c
  | None => "(no content)"
  end.

Section Assistant.

Variable json_loads : string -> result string json.
Variable http_post : request -> result string response.

(** [client.chat.completions.create(...)] followed by
    [resp.choices[0].message]. *)
Variable chat_create : chat_request -> result exn chat_message.

(** The configured model name. *)
Variable OPENAI_MODEL : string.

(** The body of [for tc in msg.tool_calls]: one requested call, on the
    message list and the protocol client. *)
Definition run_tool_call (tc : tool_call) (st : list message * MCP)
  : list message * MCP :=
  let (messages, m) := st in
  let fname := tc_name tc in
  match json_loads (tc_arguments tc) with
  | Raise e =>
      ((messages ++ [ToolMsg (tc_id tc) ("Bad args: " ++ e)])%list, m)
  | Ok fargs =>
      let (r, m') := call_tool json_loads http_post fname fargs m in
      let text :=
        match bind r extract_text with
        | Ok t => t
        | Raise e => "Error calling " ++ fname ++ ": " ++ exn_str e
        end in
      ((messages ++ [ToolMsg (tc_id tc) text])%list, m')
  end.

Definition run_tool_calls (tcs : list tool_call) (st : list message * MCP)
  : list message * MCP :=
  fold_left (fun st tc => run_tool_call tc st) tcs st.

(** One completion call: the request is recorded with the client. *)
Definition create (req : chat_request) (self : WeatherAssistant)
  : result exn chat_message * WeatherAssistant :=
  (chat_create req,
   {| client := (client self ++ [req])%list;
      mcp := mcp self;
      oa_tools := oa_tools self |}).

(** [for _ in range(2)] and the [return] after it, with [rounds] passes
    left to run. *)
Fixpoint tool_rounds (rounds : nat) (msg : chat_message)
    (messages : list message) (self : WeatherAssistant)
  : result exn string * WeatherAssistant :=
  match rounds with
  | O => (Ok (content_or_placeholder msg), self)
  | S rounds' =>
      match requested_calls msg with
      | [] => (Ok (content_or_placeholder msg), self)
      | tcs =>
          let (messages1, m1) := run_tool_calls tcs (messages, mcp self) in
          let self1 := {| client := client self;
                          mcp := m1;
                          oa_tools := oa_tools self |} in
          let (r, self2) :=
            create {| cr_model := OPENAI_MODEL;
                      cr_messages := messages1;
                      cr_tools := oa_tools self1;
                      cr_tool_choice := None |} self1 in
          match r with
          | Raise e => (Raise e, self2)
          | Ok msg' =>
              tool_rounds rounds' msg' (messages1 ++ [BackendMsg msg'])%list self2
          end
      end
  end.

(** [WeatherAssistant.ask] *)
Definition ask (question : string) (self : WeatherAssistant)
  : result exn string * WeatherAssistant :=
  let messages := [RoleMsg "system" SYSTEM_PROMPT; RoleMsg "user" question] in
  let (r, self1) :=
    create {| cr_model := OPENAI_MODEL;
              cr_messages := messages;
              cr_tools := oa_tools self;
              cr_tool_choice := Some "auto" |} self in
  match r with
  | Raise e => (Raise e, self1)
  | Ok msg => tool_rounds 2 msg (messages ++ [BackendMsg msg])%list self1
  end.

End Assistant.

(** ** The specification's reading of the event stream *)

(** The payload of a [data:] line as the specification words it: the
    prefix and at most one following space are removed. *)
Definition spec_data_payload (line : string) : string :=
  match Py.drop 5 line with
  | String " " rest => rest
  | s => s
  end.

(** Lines written out as a text: each line followed by a line feed, or
    by a carriage return and a line feed. *)
Fixpoint no_linebreak (s : string) : bool :=
  match s with
  | EmptyString => true
  | String c rest => negb (Py.is_linebreak c) && no_linebreak rest
  end.

Fixpoint unlines (eol : string) (lines : list string) : string :=
  match lines with
  | [] => EmptyString
  | l :: rest => l ++ eol ++ unlines eol rest
  end.

Definition CRLF : string := String Py.CR Py.nl.

(** A line the scan takes for a data line, and one it takes for an event
    boundary. *)
Definition is_data_line (line : string) : bool :=
  negb (Py.startswith ":" line) && Py.startswith "data:" line.

Definition is_blank_line (line : string) : bool :=
  String.eqb (Py.strip line) "".

(** The lines before the last event end on an event boundary. *)
Definition at_boundary (pre : list string) : bool :=
  match rev pre with
  | [] => true
  | l :: _ => is_blank_line l
  end.

(** The lines of one event: none is blank, one at least is a data line. *)
Definition event_lines (ev : list string) : bool :=
  forallb (fun l => negb (is_blank_line l)) ev && existsb is_data_line ev.

(** What may follow the last event: nothing, or a blank line and then
    lines that are no data lines (comments, other fields, blank lines). *)
Definition trailing_lines (tail : list string) : bool :=
  match tail with
  | [] => true
  | b :: rest => is_blank_line b && forallb (fun l => negb (is_data_line l)) rest
  end.

(** The data of an event as the scan gathers it: the payloads of its
    data lines, joined by newlines. *)
Definition event_data (ev : list string) : string :=
  Py.join Py.nl (map data_payload (filter is_data_line ev)).

(** The payloads the scan captures, in order: every value [last_data]
    takes, the capture after the loop included. *)
Fixpoint captured_from (buf : list string) (lines : list string) : list string :=
  match lines with
  | [] => match buf with [] => [] | _ :: _ => [Py.join Py.nl buf] end
  | line :: rest =>
      if Py.startswith ":" line then captured_from buf rest
      else if Py.startswith "data:" line then
        captured_from (buf ++ [data_payload line])%list rest
      else if String.eqb (Py.strip line) "" then
        match buf with
        | [] => captured_from [] rest
        | _ :: _ => Py.join Py.nl buf :: captured_from [] rest
        end
      else captured_from buf rest
  end.

Definition captured_payloads (body : string) : list string :=
  captured_from [] (Py.splitlines body).

(** ** Sample surroundings for the examples *)

(** [json.loads] tabulated: the texts of [table] load as the documents
    beside them, every other text is refused. *)
Fixpoint loads_table (table : list (string * json)) (s : string)
  : result string json :=
  match table with
  | [] => Raise "Expecting value: line 1 column 1 (char 0)"
  | (t, doc) :: table' =>
      if String.eqb s t then Ok doc else loads_table table' s
  end.

Definition envelope (id : Z) (res : dict) : json :=
  JDict [("jsonrpc", JStr "2.0"); ("id", JInt id); ("result", JDict res)].

Definition sample_table : list (string * json) :=
  [ (Fmt.js "{'jsonrpc':'2.0','id':1,'result':{}}", envelope 1 []);
    (Fmt.js "{'jsonrpc':'2.0','id':1,'result':{'tools':'none'}}",
     envelope 1 [("tools", JStr "none")]);
    (Fmt.js "{'jsonrpc':'2.0','id':3,'result':{'n':3}}",
     envelope 3 [("n", JInt 3)]);
    (Fmt.js "{'jsonrpc':'2.0',"
       ++ Py.nl ++ Fmt.js "'id':3,'result':{'n':3}}",
     envelope 3 [("n", JInt 3)]);
    (Fmt.js "{'jsonrpc':'2.0','error':{'code':-32601,'message':'Method not found'}}",
     JDict [("jsonrpc", JStr "2.0");
            ("error", JDict [("code", JInt (-32601));
                             ("message", JStr "Method not found")])]);
    (Fmt.js "{'city':'Oslo'}", JDict [("city", JStr "Oslo")]) ].

Definition sample_loads : string -> result string json :=
  loads_table sample_table.

(** [json.loads] tabulated with refusals: each text of [table] has the
    outcome beside it, every other text is refused. *)
Fixpoint loads_cases (table : list (string * result string json)) (s : string)
  : result string json :=
  match table with
  | [] => Raise "Expecting value: line 1 column 1 (char 0)"
  | (t, outcome) :: table' =>
      if String.eqb s t then outcome else loads_cases table' s
  end.

(** A JSON-RPC result whose string holds the character U+0085 (next
    line), which JSON allows unescaped inside a string, and the part of
    that text before the character. *)
Definition NEL : string := String "133"%char "".

Definition nel_cut : string :=
  Fmt.js "{'jsonrpc':'2.0','id':1,'result':{'k':'a".

Definition nel_payload : string := nel_cut ++ NEL ++ Fmt.js "b'}}".

Definition nel_loads : string -> result string json :=
  loads_cases
    [(nel_payload, Ok (envelope 1 [("k", JStr ("a" ++ NEL ++ "b"))]));
     (nel_cut,
      Raise "Unterminated string starting at: line 1 column 39 (char 38)")].

Definition XW_MCP : string := "https://mcp.api.xweather.com/mcp".

(** A server that answers every request with the given body. *)
Definition serve (ctype body : string) (_ : request) : result string response :=
  Ok {| status_code := 200; content_type := Some ctype; text := body |}.

(** A transport that fails on every request. *)
Definition unreachable (_ : request) : result string response :=
  Raise "[Errno 111] Connection refused".

(** ** Definitions used to state the properties *)

(** A dict without the items under a key. *)
Fixpoint dict_remove (k : string) (d : dict) : dict :=
  match d with
  | [] => []
  | (k', v) :: d' =>
      if String.eqb k k' then dict_remove k d' else (k', v) :: dict_remove k d'
  end.


(** The scan from a given state. *)
Definition scan (st : sse_state) (lines : list string) : sse_state :=
  fold_left sse_step lines st.


(** *** Tool results *)

(** The text of a [text]-typed part when it is a string. *)
Definition text_of_part (c : json) : list string :=
  match part_text c with
  | JStr s => [s]
  | _ => []
  end.

Definition has_str_text (c : json) : bool :=
  match part_text c with
  | JStr _ => true
  | _ => false
  end.

(** The non-empty texts of the [text]-typed parts, in order. *)
Definition nonempty_texts (items : list json) : list string :=
  filter (fun s => negb (String.eqb s ""))
         (flat_map text_of_part (filter is_text_part items)).


(** *** Clients driven through sequences of operations *)

(** The operations of a client, and a client driven through any sequence
    of them. *)
Inductive client_op : Type :=
| OpListTools
| OpCallTool (name : string) (arguments : json)
| OpRpc (method : string) (params : option json).

(** The [id] a posted request carries. *)
Definition request_id (r : request) : option Z :=
  match req_json r with
  | JDict d =>
      match dict_get "id" d with
      | Some (JInt i) => Some i
      | _ => None
      end
  | _ => None
  end.

Section Driver.

Variable json_loads : string -> result string json.
Variable http_post : request -> result string response.

Definition run_op (self : MCP) (op : client_op) : MCP :=
  match op with
  | OpListTools => snd (list_tools json_loads http_post self)
  | OpCallTool name arguments =>
      snd (call_tool json_loads http_post name arguments self)
  | OpRpc method params => snd (_rpc json_loads http_post method params self)
  end.

Definition run_ops (ops : list client_op) (self : MCP) : MCP :=
  fold_left run_op ops self.

End Driver.

(** *** Tool messages *)

(** The message a requested call leaves behind answers that call. *)
Definition answers (tc : tool_call) (out : message) : Prop :=
  exists text, out = ToolMsg (tc_id tc) text.


(** *** Sample bodies and runs *)

(** Three events with comments and another field in between; the stream
    ends after the data lines of the third, whose payload spans two
    lines. *)
Definition three_events : string :=
  ": connected" ++ Py.nl
  ++ "data: " ++ Fmt.js "{'city':'Oslo'}" ++ Py.nl
  ++ Py.nl
  ++ "event: message" ++ Py.nl
  ++ "data:" ++ Fmt.js "{'jsonrpc':'2.0','id':1,'result':{}}" ++ Py.nl
  ++ ": heartbeat" ++ Py.nl
  ++ Py.nl
  ++ ": heartbeat" ++ Py.nl
  ++ "data: " ++ Fmt.js "{'jsonrpc':'2.0'," ++ Py.nl
  ++ ": heartbeat" ++ Py.nl
  ++ "data: " ++ Fmt.js "'id':3,'result':{'n':3}}".


(** Bare data lines, each followed by a blank line. *)
Definition bare_data : string :=
  "data:" ++ Py.nl ++ Py.nl ++ "data: " ++ Py.nl ++ Py.nl.


Definition error_body : string :=
  Fmt.js "{'jsonrpc':'2.0','error':{'code':-32601,'message':'Method not found'}}".


Definition tools_not_a_list : string :=
  Fmt.js "{'jsonrpc':'2.0','id':1,'result':{'tools':'none'}}".

Definition no_tools_field : string :=
  Fmt.js "{'jsonrpc':'2.0','id':1,'result':{}}".


(** A backend whose every reply requests two tool calls, the first with
    an argument string that is no JSON text. *)
Definition eager_backend (_ : chat_request) : result exn chat_message :=
  Ok {| content := None;
        tool_calls :=
          Some [ {| tc_id := "call_1"; tc_name := "get_weather";
                    tc_arguments := "oops" |};
                 {| tc_id := "call_2"; tc_name := "get_weather";
                    tc_arguments := Fmt.js "{'city':'Oslo'}" |} ] |}.


Definition assistant0 : WeatherAssistant :=
  {| client := []; mcp := MCP_init XW_MCP None; oa_tools := [] |}.

Definition eager_run : result exn string * WeatherAssistant :=
  ask sample_loads unreachable eager_backend "gpt-4o-mini"
      "Weather in Oslo?" assistant0.


(** ** The rest of weather_assistant.py *)

(** [to_openai_tools]: the function-calling tools for the descriptors
    that carry a name.  A descriptor that is no dict has no [get]. *)
Definition function_tool (d : dict) : json :=
  JDict [("type", JStr "function");
         ("function",
          JDict [("name", get "name" d);
                 ("description", get_default "description" (JStr "") d);
                 ("parameters",
                  get_default "inputSchema"
                    (JDict [("type", JStr "object");
                            ("properties", JDict []);
                            ("required", JList [])]) d)])].

Fixpoint to_openai_tools (mcp_tools : list json) : result exn (list json) :=
  match mcp_tools with
  | [] => Ok []
  | t :: rest =>
      match t with
      | JDict d =>
          if truthy (get "name" d) then
            bind (to_openai_tools rest) (fun out => Ok (function_tool d :: out))
          else to_openai_tools rest
      | other =>
          Raise (AttributeError ("'" ++ type_name other
                                 ++ "' object has no attribute 'get'"))
      end
  end.

Section Bootstrap.

Variable json_loads : string -> result string json.
Variable http_post : request -> result string response.

(** The two credentials read from the environment. *)
Variable XW_ID : string.
Variable XW_SECRET : string.

Definition XW_TOKEN : string := XW_ID ++ "_" ++ XW_SECRET.

Definition header_client : MCP :=
  MCP_init XW_MCP (Some [("Authorization", "Bearer " ++ XW_TOKEN)]).

Definition query_client : MCP :=
  MCP_init (XW_MCP ++ "?api_key=" ++ XW_TOKEN) None.

(** [build_clients]: the client, the tools it listed and the name of the
    authentication that worked. *)
Definition build_clients : result exn (MCP * list json * string) :=
  match list_tools json_loads http_post header_client with
  | (Ok tools, c) => Ok (c, tools, "header")
  | (Raise _, _) =>
      match list_tools json_loads http_post query_client with
      | (Ok tools, c) => Ok (c, tools, "query")
      | (Raise e, _) => Raise e
      end
  end.

(** [WeatherAssistant.__init__] *)
Definition WeatherAssistant_init : result exn WeatherAssistant :=
  bind build_clients (fun built =>
  match built with
  | (c, tools, _) =>
      bind (to_openai_tools tools) (fun tools' =>
      Ok {| client := []; mcp := c; oa_tools := tools' |})
  end).

End Bootstrap.

(** ** Definitions used to state the further properties *)

(** [header_get]: the value a string dict holds for a key. *)
Fixpoint header_get (k : string) (h : list (string * string)) : option string :=
  match h with
  | [] => None
  | (k', v) :: h' => if String.eqb k k' then Some v else header_get k h'
  end.

(** The parts of a posted JSON-RPC request. *)
Definition request_field (k : string) (r : request) : option json :=
  match req_json r with
  | JDict d => dict_get k d
  | _ => None
  end.

(** The name an emitted function tool carries. *)
Definition tool_name (t : json) : json :=
  match t with
  | JDict d =>
      match dict_get "function" d with
      | Some (JDict f) => get "name" f
      | _ => JNull
      end
  | _ => JNull
  end.

Definition descriptor_name (t : json) : json :=
  match t with
  | JDict d => get "name" d
  | _ => JNull
  end.

Definition is_dict (v : json) : bool :=
  match v with
  | JDict _ => true
  | _ => false
  end.

(** A line the scan ignores: a comment, or a line that is neither a
    data line nor blank. *)
Definition is_ignored_line (line : string) : bool :=
  Py.startswith ":" line
  || (negb (Py.startswith "data:" line) && negb (is_blank_line line)).


(** The requested calls whose argument string loads as JSON. *)
Definition loadable (loads : string -> result string json) (tc : tool_call)
  : bool :=
  match loads (tc_arguments tc) with
  | Ok _ => true
  | Raise _ => false
  end.

(** A server that answers every request with the given response. *)
Definition answer_with (r : response) (_ : request) : result string response :=
  Ok r.

Definition unavailable : response :=
  {| status_code := 503; content_type := Some "text/html";
     text := "Service Unavailable" |}.


(** The first completion request of [ask]. *)
Definition first_request (model question : string) (tools : list json)
  : chat_request :=
  {| cr_model := model;
     cr_messages := [RoleMsg "system" SYSTEM_PROMPT; RoleMsg "user" question];
     cr_tools := tools;
     cr_tool_choice := Some "auto" |}.



(** The completion requests that follow a request [r] in one run: each
    is made because the reply to the one before requested tool calls,
    and carries the messages of the one before, that reply, and one Tool
    message per requested call, in order. *)
Inductive follow_ups (chat_create : chat_request -> result exn chat_message)
    (model : string) (tools : list json)
  : chat_request -> list chat_request -> Prop :=
| follow_ups_nil (r : chat_request) : follow_ups chat_create model tools r []
| follow_ups_cons (r r' : chat_request) (rest : list chat_request)
    (msg : chat_message) (outs : list message) :
    chat_create r = Ok msg ->
    requested_calls msg <> [] ->
    cr_messages r' = (cr_messages r ++ BackendMsg msg :: outs)%list ->
    Forall2 answers (requested_calls msg) outs ->
    cr_model r' = model ->
    cr_tools r' = tools ->
    cr_tool_choice r' = None ->
    follow_ups chat_create model tools r' rest ->
    follow_ups chat_create model tools r (r' :: rest).

(** The requests a client has posted carry the ids 1, 2, ... in order,
    and the counter stands on the last of them. *)
Definition ids_in_order (m : MCP) : Prop :=
  map request_id (http m)
  = map (fun k => Some (Z.of_nat k)) (seq 1 (length (http m)))
  /\ _id m = Z.of_nat (length (http m)).

(** A backend that answers in plain text and requests no tool. *)
Definition plain_backend (answer : string) (_ : chat_request)
  : result exn chat_message :=
  Ok {| content := Some answer; tool_calls := None |}.

(** A server that lists one tool, whatever the request. *)
Definition one_tool_body : string :=
  Fmt.js "{'jsonrpc':'2.0','id':1,'result':{'tools':[{'name':'get_weather'}]}}".

Definition catalog_loads : string -> result string json :=
  loads_table
    [(one_tool_body,
      envelope 1 [("tools", JList [JDict [("name", JStr "get_weather")]])])].

(** A server that refuses requests that carry an [Authorization] header
    and lists one tool for the others. *)
Definition query_only (r : request) : result string response :=
  match header_get "Authorization" (req_headers r) with
  | Some _ =>
      Ok {| status_code := 401; content_type := Some "text/plain";
            text := "Unauthorized" |}
  | None =>
      Ok {| status_code := 200; content_type := Some "application/json";
            text := one_tool_body |}
  end.

(** * Properties *)

(** ** Strings *)

Example splitlines_ex1 :
  Py.splitlines ("a" ++ Py.nl ++ Py.nl ++ "b" ++ Py.nl) = ["a"; ""; "b"].
Proof. reflexivity. Qed.

Example splitlines_ex2 :
  Py.splitlines ("a" ++ String Py.CR Py.nl ++ "b") = ["a"; "b"].
Proof. reflexivity. Qed.

Example strip_ex : Py.strip "  a b  " = "a b" /\ Py.strip "   " = "".
Proof. split; reflexivity. Qed.

Example str_of_Z_ex : Py.str_of_Z (-32601) = "-32601" /\ Py.str_of_Z 0 = "0".
Proof. split; reflexivity. Qed.


Lemma take_length (n : nat) (s : string) : String.length (Py.take n s) <= n.
Proof.
  revert s; induction n as [|n IH]; intros [|c s]; simpl; try lia.
  specialize (IH s); lia.
Qed.

Lemma rstrip_head_kept (c : ascii) (r : string) :
  Py.is_space c = false ->
  exists r', Py.rstrip (String c r) = String c r'.
Proof.
  intros Hc; simpl.
  destruct (Py.rstrip r) as [|c' r'].
  - rewrite Hc; eauto.
  - eauto.
Qed.

Lemma strip_empty_head (c : ascii) (r : string) :
  Py.strip (String c r) = "" -> Py.is_space c = true.
Proof.
  intros H.
  destruct (Py.is_space c) eqn:Hc; [reflexivity|].
  destruct (rstrip_head_kept c r Hc) as [r' Hr].
  unfold Py.strip in H; rewrite Hr in H; simpl in H.
  rewrite Hc in H; discriminate.
Qed.

Lemma prefix_head (a c : ascii) (p r : string) :
  String.prefix (String a p) (String c r) = true -> a = c.
Proof.
  simpl; destruct (ascii_dec a c); [auto | discriminate].
Qed.

(** [splitlines] gives back the lines a text was written from, with
    either terminator, and keeps a last line that has no terminator. *)
Lemma splitlines_line_lf (l rest : string) :
  no_linebreak l = true ->
  Py.splitlines (l ++ Py.nl ++ rest) = l :: Py.splitlines rest.
Proof.
  induction l as [|c l IH]; intros H.
  - simpl; destruct rest; reflexivity.
  - simpl in H; apply andb_true_iff in H as [Hc Hl].
    apply negb_true_iff in Hc.
    cbn [append Py.splitlines]; rewrite Hc.
    change (l ++ String Py.LF rest) with (l ++ Py.nl ++ rest).
    rewrite (IH Hl); reflexivity.
Qed.

Lemma splitlines_line_crlf (l rest : string) :
  no_linebreak l = true ->
  Py.splitlines (l ++ CRLF ++ rest) = l :: Py.splitlines rest.
Proof.
  induction l as [|c l IH]; intros H.
  - reflexivity.
  - simpl in H; apply andb_true_iff in H as [Hc Hl].
    apply negb_true_iff in Hc.
    cbn [append Py.splitlines]; rewrite Hc.
    change (l ++ String Py.CR (String Py.LF rest)) with (l ++ CRLF ++ rest).
    rewrite (IH Hl); reflexivity.
Qed.

Lemma splitlines_last_line (l : string) :
  no_linebreak l = true -> l <> "" -> Py.splitlines l = [l].
Proof.
  induction l as [|c l IH]; intros H Hne; [contradiction|].
  simpl in H; apply andb_true_iff in H as [Hc Hl].
  apply negb_true_iff in Hc.
  cbn [Py.splitlines]; rewrite Hc.
  destruct l as [|c' l']; [reflexivity|].
  rewrite (IH Hl) by discriminate; reflexivity.
Qed.

Lemma append_assoc (a b c : string) : (a ++ b) ++ c = a ++ (b ++ c).
Proof. induction a as [|x a IH]; simpl; [reflexivity | rewrite IH; reflexivity]. Qed.

Lemma splitlines_unlines (eol : string) (lines : list string) (last : string) :
  eol = Py.nl \/ eol = CRLF ->
  forallb no_linebreak lines = true ->
  no_linebreak last = true ->
  Py.splitlines (unlines eol lines ++ last)
  = (lines ++ match last with EmptyString => [] | _ => [last] end)%list.
Proof.
  intros Heol Hlines Hlast.
  induction lines as [|l lines IH]; simpl in *.
  - destruct last as [|c r]; [reflexivity|].
    apply splitlines_last_line; [exact Hlast | discriminate].
  - apply andb_true_iff in Hlines as [Hl Hrest].
    rewrite !append_assoc.
    destruct Heol as [-> | ->].
    + rewrite (splitlines_line_lf l _ Hl), (IH Hrest); reflexivity.
    + rewrite (splitlines_line_crlf l _ Hl), (IH Hrest); reflexivity.
Qed.

(** A blank line is neither a comment nor a data line. *)
Lemma blank_not_field (l : string) :
  is_blank_line l = true ->
  Py.startswith ":" l = false /\ Py.startswith "data:" l = false.
Proof.
  unfold is_blank_line; intros H; apply String.eqb_eq in H.
  destruct l as [|c r]; [split; reflexivity|].
  apply strip_empty_head in H.
  split.
  - destruct (Py.startswith ":" (String c r)) eqn:E; [|reflexivity].
    apply prefix_head in E; subst c; discriminate.
  - destruct (Py.startswith "data:" (String c r)) eqn:E; [|reflexivity].
    apply prefix_head in E; subst c; discriminate.
Qed.

Lemma lstrip_space (c : ascii) (s : string) :
  Py.is_space c = true -> Py.lstrip (String c s) = Py.lstrip s.
Proof. intros H; simpl; rewrite H; reflexivity. Qed.

(** The code's payload is the specification's with its leading
    whitespace removed. *)
Lemma data_payload_lstrip_spec (line : string) :
  data_payload line = Py.lstrip (spec_data_payload line).
Proof.
  unfold data_payload, spec_data_payload.
  destruct (Py.drop 5 line) as [|c s]; [reflexivity|].
  destruct (Ascii.eqb_spec c " "%char) as [->|Hne]; [reflexivity|].
  destruct c as [[] [] [] [] [] [] [] []]; reflexivity.
Qed.

(** ** The event-stream scan *)

Lemma scan_app (st : sse_state) (l1 l2 : list string) :
  scan st (l1 ++ l2) = scan (scan st l1) l2.
Proof. apply fold_left_app. Qed.

Lemma step_blank (st : sse_state) (l : string) :
  is_blank_line l = true ->
  sse_step st l =
    match data_buf st with
    | [] => st
    | _ :: _ => {| data_buf := []; last_data := Some (Py.join Py.nl (data_buf st)) |}
    end.
Proof.
  intros H; destruct (blank_not_field l H) as [Hc Hd].
  unfold sse_step; rewrite Hc, Hd.
  unfold is_blank_line in H; rewrite H; reflexivity.
Qed.

Lemma step_blank_buf (st : sse_state) (l : string) :
  is_blank_line l = true -> data_buf (sse_step st l) = [].
Proof.
  intros H; rewrite (step_blank st l H).
  destruct (data_buf st) eqn:E; [exact E | reflexivity].
Qed.

(** After lines that end on a boundary the buffer is empty. *)
Lemma scan_boundary (pre : list string) :
  at_boundary pre = true -> data_buf (scan sse_init pre) = [].
Proof.
  unfold at_boundary; intros H.
  destruct (rev pre) as [|l rp] eqn:E.
  - apply (f_equal (@rev string)) in E; rewrite rev_involutive in E.
    subst pre; reflexivity.
  - apply (f_equal (@rev string)) in E; rewrite rev_involutive in E.
    subst pre; simpl; rewrite scan_app; simpl.
    apply step_blank_buf; exact H.
Qed.

(** Inside an event the scan only gathers the payloads of data lines. *)
Lemma scan_event (ev : list string) (st : sse_state) :
  forallb (fun l => negb (is_blank_line l)) ev = true ->
  scan st ev =
    {| data_buf := (data_buf st ++ map data_payload (filter is_data_line ev))%list;
       last_data := last_data st |}.
Proof.
  revert st; induction ev as [|l ev IH]; intros st H; simpl in *.
  - rewrite app_nil_r; destruct st; reflexivity.
  - apply andb_true_iff in H as [Hl Hev].
    rewrite (IH _ Hev); clear IH.
    unfold sse_step, is_data_line.
    destruct (Py.startswith ":" l); simpl; [reflexivity|].
    destruct (Py.startswith "data:" l); simpl.
    + rewrite <- app_assoc; reflexivity.
    + unfold is_blank_line in Hl.
      destruct (String.eqb (Py.strip l) ""); [discriminate | reflexivity].
Qed.

(** With an empty buffer, lines that are no data lines change nothing. *)
Lemma scan_no_data (rest : list string) (st : sse_state) :
  data_buf st = [] ->
  forallb (fun l => negb (is_data_line l)) rest = true ->
  scan st rest = st.
Proof.
  revert st; induction rest as [|l rest IH]; intros st Hb H; simpl in *.
  - reflexivity.
  - apply andb_true_iff in H as [Hl Hrest].
    assert (Hs : sse_step st l = st).
    { unfold sse_step; unfold is_data_line in Hl.
      destruct (Py.startswith ":" l); [reflexivity|].
      destruct (Py.startswith "data:" l); [discriminate|].
      destruct (String.eqb (Py.strip l) ""); [|reflexivity].
      rewrite Hb; reflexivity. }
    rewrite Hs; apply IH; assumption.
Qed.

Lemma existsb_filter_nonempty {A : Type} (f : A -> bool) (l : list A) :
  existsb f l = true -> filter f l <> [].
Proof.
  induction l as [|a l IH]; simpl; [discriminate|].
  destruct (f a); [discriminate | exact IH].
Qed.

(** The value of [last_data] after a stream that ends with one event:
    the payloads of that event's data lines, joined by newlines. *)
Lemma last_data_of_last_event (body : string) (pre ev tail : list string) :
  Py.splitlines body = (pre ++ ev ++ tail)%list ->
  at_boundary pre = true ->
  event_lines ev = true ->
  trailing_lines tail = true ->
  sse_last_data body =
    Some (Py.join Py.nl (map data_payload (filter is_data_line ev))).
Proof.
  intros Hlines Hpre Hev Htail.
  unfold sse_last_data; rewrite Hlines.
  change (fold_left sse_step (pre ++ ev ++ tail)%list sse_init)
    with (scan sse_init (pre ++ ev ++ tail)).
  rewrite !scan_app.
  apply andb_true_iff in Hev as [Hnb Hdata].
  rewrite (scan_event ev _ Hnb), (scan_boundary pre Hpre); simpl.
  pose proof (existsb_filter_nonempty _ _ Hdata) as Hne.
  destruct (filter is_data_line ev) as [|d ds] eqn:Ed; [contradiction|].
  clear Hne; simpl map.
  destruct tail as [|b rest]; simpl.
  - reflexivity.
  - apply andb_true_iff in Htail as [Hb Hrest].
    rewrite (step_blank _ b Hb); simpl.
    rewrite scan_no_data; simpl; auto.
Qed.

(** [last_data] is the last payload the scan captured. *)
Lemma scan_captured (lines : list string) (st : sse_state) :
  let st' := scan st lines in
  match data_buf st' with
  | [] => last_data st'
  | _ :: _ => Some (Py.join Py.nl (data_buf st'))
  end
  = match rev (captured_from (data_buf st) lines) with
    | [] => last_data st
    | p :: _ => Some p
    end.
Proof.
  revert st; induction lines as [|l lines IH]; intros st; simpl.
  - destruct (data_buf st); reflexivity.
  - rewrite IH; clear IH; unfold sse_step.
    destruct (Py.startswith ":" l); [reflexivity|].
    destruct (Py.startswith "data:" l); [reflexivity|].
    destruct (String.eqb (Py.strip l) ""); [|reflexivity].
    destruct (data_buf st) as [|b bs] eqn:E; simpl.
    + rewrite E; reflexivity.
    + destruct (rev (captured_from [] lines)); reflexivity.
Qed.

Lemma sse_last_data_captured (body : string) :
  sse_last_data body =
    match rev (captured_payloads body) with
    | [] => None
    | p :: _ => Some p
    end.
Proof.
  unfold sse_last_data, captured_payloads.
  exact (scan_captured (Py.splitlines body) sse_init).
Qed.

Section SseProperties.

Variable json_loads : string -> result string json.

(** C10.  When every payload the scan captures is the empty string (or
    none is captured at all), the parser fails with the error it gives
    for a stream without data. *)
Theorem sse_empty_payload_is_no_payload (body : string) :
  (forall p, In p (captured_payloads body) -> p = "") ->
  _parse_sse_to_json json_loads body = Raise (MCPError NO_DATA).
Proof.
  intros Hall.
  unfold _parse_sse_to_json; rewrite sse_last_data_captured.
  destruct (rev (captured_payloads body)) as [|p ps] eqn:E; [reflexivity|].
  assert (Hp : p = "").
  { apply Hall, in_rev; rewrite E; left; reflexivity. }
  subst p; reflexivity.
Qed.

End SseProperties.

Lemma sse_empty_payload_is_no_payload_witness :
  captured_payloads bare_data = [""; ""]
  /\ _parse_sse_to_json sample_loads bare_data = Raise (MCPError NO_DATA).
Proof.
  split; [reflexivity|].
  apply (sse_empty_payload_is_no_payload sample_loads bare_data).
  intros p [<-|[<-|[]]]; reflexivity.
Defined.

(** C3.  A stream whose single event carries a JSON-RPC result with the
    character U+0085 inside a string.  The scan takes that character for
    the end of the line: the data line is cut there, the rest of the
    payload is a line of its own that is no data line and is dropped,
    and what reaches [json.loads] is the text before the character,
    which does not load.  The same payload sent as a JSON body is
    accepted. *)
Theorem sse_cuts_payload_at_line_boundary :
  Py.splitlines ("data: " ++ nel_payload ++ Py.nl ++ Py.nl)
  = ["data: " ++ nel_cut; Fmt.js "b'}}"; ""]
  /\ sse_last_data ("data: " ++ nel_payload ++ Py.nl ++ Py.nl) = Some nel_cut
  /\ _rpc_response nel_loads
       {| status_code := 200; content_type := Some "text/event-stream";
          text := "data: " ++ nel_payload ++ Py.nl ++ Py.nl |}
     = Raise (MCPError
                "SSE 'data' not valid JSON: Unterminated string starting at: line 1 column 39 (char 38)")
  /\ _rpc_response nel_loads
       {| status_code := 200; content_type := Some "application/json";
          text := nel_payload |}
     = Ok [("k", JStr ("a" ++ NEL ++ "b"))].
Proof. repeat split; reflexivity. Qed.

(** C7.  On a data line with two spaces after the colon the code removes
    both, where the specification (and the comment above the statement)
    removes one: the payload is ["x"], not [" x"].  A tab is removed as
    well. *)
Theorem data_payload_strips_all_whitespace :
  data_payload "data:  x" = "x"
  /\ spec_data_payload "data:  x" = " x"
  /\ data_payload ("data:" ++ String "009"%char "x") = "x"
  /\ sse_last_data ("data:  x" ++ Py.nl ++ Py.nl) = Some "x".
Proof. repeat split; reflexivity. Qed.

(** ** Envelope validation *)

Lemma dict_get_remove (k k' : string) (d : dict) :
  dict_get k (dict_remove k' d)
  = if String.eqb k k' then None else dict_get k d.
Proof.
  induction d as [|[k0 v0] d IH]; simpl.
  - destruct (String.eqb k k'); reflexivity.
  - destruct (String.eqb_spec k' k0) as [->|Hne]; simpl.
    + rewrite IH; destruct (String.eqb_spec k k0); reflexivity.
    + rewrite IH.
      destruct (String.eqb_spec k k0) as [->|]; [|reflexivity].
      destruct (String.eqb_spec k0 k'); [congruence | reflexivity].
Qed.

(** C4, as the code has it.  For a document that is an object:
    with [jsonrpc == "2.0"] and an [error] field that is a non-empty
    object it fails with the [MCPError] that carries the code and the
    message of that object, whatever else the document holds, a [result]
    field included; with [jsonrpc == "2.0"] and an [error] field that is
    falsy ([null], [false], 0, the empty string, list or object) it is
    validated exactly as the same document without the [error] field;
    without [jsonrpc == "2.0"] it fails as an invalid envelope, whatever
    its [error] field. *)
Theorem unwrap_error_wins_over_result (d : dict) :
  (dict_get "jsonrpc" d = Some (JStr "2.0") ->
   forall err,
     dict_get "error" d = Some (JDict err) ->
     err <> [] ->
     _unwrap_jsonrpc (JDict d)
     = Raise (MCPError ("MCP error " ++ Fmt.str (get "code" err)
                        ++ ": " ++ Fmt.str (get "message" err))))
  /\ (dict_get "jsonrpc" d = Some (JStr "2.0") ->
      truthy (get "error" d) = false ->
      _unwrap_jsonrpc (JDict d)
      = _unwrap_jsonrpc (JDict (dict_remove "error" d)))
  /\ (dict_get "jsonrpc" d <> Some (JStr "2.0") ->
      _unwrap_jsonrpc (JDict d)
      = Raise (MCPError ("Invalid JSON-RPC envelope:" ++ Py.nl
                         ++ Py.take 800 (Fmt.json_dumps (JDict d))))).
Proof.
  repeat split.
  - intros Hv err He Hne.
    unfold _unwrap_jsonrpc, get; rewrite Hv, He; simpl.
    destruct err; [contradiction | reflexivity].
  - intros Hv Hf.
    unfold _unwrap_jsonrpc.
    rewrite Hf.
    unfold get; rewrite !dict_get_remove, Hv; simpl.
    reflexivity.
  - intros Hv.
    unfold _unwrap_jsonrpc.
    destruct (dict_get "jsonrpc" d) as [[| | | |v| |]|]; try reflexivity.
    destruct (String.eqb_spec v "2.0") as [->|]; [|reflexivity].
    contradiction Hv; reflexivity.
Qed.

Lemma unwrap_error_wins_over_result_witness :
  _unwrap_jsonrpc
    (JDict [("jsonrpc", JStr "2.0");
            ("id", JInt 7);
            ("result", JDict [("content", JList [])]);
            ("error", JDict [("code", JInt (-32601));
                             ("message", JStr "Method not found")])])
  = Raise (MCPError "MCP error -32601: Method not found")
  /\ _unwrap_jsonrpc
       (JDict [("jsonrpc", JStr "2.0"); ("error", JList []);
               ("result", JDict [("ok", JBool true)])])
     = _unwrap_jsonrpc
         (JDict [("jsonrpc", JStr "2.0");
                 ("result", JDict [("ok", JBool true)])])
  /\ _unwrap_jsonrpc
       (JDict [("jsonrpc", JStr "1.0");
               ("error", JDict [("code", JInt 1); ("message", JStr "boom")])])
     = Raise (MCPError
                ("Invalid JSON-RPC envelope:" ++ Py.nl
                 ++ Py.take 800
                      (Fmt.json_dumps
                         (JDict [("jsonrpc", JStr "1.0");
                                 ("error",
                                  JDict [("code", JInt 1);
                                         ("message", JStr "boom")])])))).
Proof.
  split; [|split].
  - apply (proj1 (unwrap_error_wins_over_result
             [("jsonrpc", JStr "2.0");
              ("id", JInt 7);
              ("result", JDict [("content", JList [])]);
              ("error", JDict [("code", JInt (-32601));
                               ("message", JStr "Method not found")])])
             eq_refl
             [("code", JInt (-32601)); ("message", JStr "Method not found")]
             eq_refl).
    discriminate.
  - apply (proj1 (proj2 (unwrap_error_wins_over_result
             [("jsonrpc", JStr "2.0"); ("error", JList []);
              ("result", JDict [("ok", JBool true)])]))
             eq_refl eq_refl).
  - apply (proj2 (proj2 (unwrap_error_wins_over_result
             [("jsonrpc", JStr "1.0");
              ("error", JDict [("code", JInt 1); ("message", JStr "boom")])]))).
    discriminate.
Defined.

(** A document with an [error] field that is [null] is answered with its
    result; one with an [error] object but without the version marker is
    an invalid envelope. *)
Lemma unwrap_error_field_not_always_remote_error :
  _unwrap_jsonrpc
    (JDict [("jsonrpc", JStr "2.0"); ("id", JInt 1);
            ("error", JNull); ("result", JDict [("ok", JBool true)])])
  = Ok [("ok", JBool true)]
  /\ _unwrap_jsonrpc
       (JDict [("error", JDict [("code", JInt 1); ("message", JStr "boom")])])
     = Raise (MCPError
                ("Invalid JSON-RPC envelope:" ++ Py.nl
                 ++ Fmt.js "{" ++ Py.nl
                 ++ Fmt.js "  'error': {" ++ Py.nl
                 ++ Fmt.js "    'code': 1," ++ Py.nl
                 ++ Fmt.js "    'message': 'boom'" ++ Py.nl
                 ++ Fmt.js "  }" ++ Py.nl
                 ++ Fmt.js "}")).
Proof. split; reflexivity. Qed.

(** ** Text of a tool result *)

Lemma join_values_strings (parts : list json) (i : nat) :
  forallb has_str_text parts = true ->
  join_values i (filter truthy (map part_text parts))
  = Ok (filter (fun s => negb (String.eqb s "")) (flat_map text_of_part parts)).
Proof.
  revert i; induction parts as [|c parts IH]; intros i H; simpl in *.
  - reflexivity.
  - apply andb_true_iff in H as [Hc Hparts].
    unfold has_str_text in Hc; unfold text_of_part.
    destruct (part_text c) as [| | | |s| |]; try discriminate.
    simpl; destruct (String.eqb s ""); simpl.
    + apply IH; exact Hparts.
    + rewrite (IH (S i) Hparts); reflexivity.
Qed.

Lemma join_nonempty (sep s : string) (ss : list string) :
  s <> "" -> Py.join sep (s :: ss) <> "".
Proof.
  intros Hs; unfold Py.join; simpl.
  destruct s as [|c s]; [contradiction|].
  destruct ss; simpl; discriminate.
Qed.

(** C6, as the code has it.  For a result whose [content] is a list (or
    is absent) and whose [text]-typed parts carry strings, [extract_text]
    returns the non-empty texts of those parts, in order, joined by
    newlines; it returns the indented JSON dump of the whole result
    exactly when no [text]-typed part has a non-empty text. *)
Theorem extract_text_joins_nonempty_texts (tool_result : dict) (items : list json) :
  get_default "content" (JList []) tool_result = JList items ->
  forallb has_str_text (filter is_text_part items) = true ->
  extract_text tool_result
  = Ok match nonempty_texts items with
       | [] => Fmt.json_dumps (JDict tool_result)
       | _ :: _ => Py.join Py.nl (nonempty_texts items)
       end.
Proof.
  intros Hc Hs.
  unfold extract_text; rewrite Hc; simpl.
  rewrite (join_values_strings _ 0 Hs); simpl.
  fold (nonempty_texts items).
  destruct (nonempty_texts items) as [|s ss] eqn:E; [reflexivity|].
  assert (Hs0 : s <> "").
  { assert (Hin : In s (nonempty_texts items)) by (rewrite E; left; reflexivity).
    unfold nonempty_texts in Hin; apply filter_In in Hin as [_ Hne].
    apply negb_true_iff, String.eqb_neq in Hne; exact Hne. }
  pose proof (join_nonempty Py.nl s ss Hs0) as Hj.
  apply String.eqb_neq in Hj; rewrite Hj; reflexivity.
Qed.

(** The example of the specification: texts A and B around an image. *)
Lemma extract_text_joins_nonempty_texts_witness :
  extract_text
    [("content",
      JList [JDict [("type", JStr "text"); ("text", JStr "A")];
             JDict [("type", JStr "image")];
             JDict [("type", JStr "text"); ("text", JStr "B")]])]
  = Ok ("A" ++ Py.nl ++ "B").
Proof.
  apply (extract_text_joins_nonempty_texts
           [("content",
             JList [JDict [("type", JStr "text"); ("text", JStr "A")];
                    JDict [("type", JStr "image")];
                    JDict [("type", JStr "text"); ("text", JStr "B")]])]
           [JDict [("type", JStr "text"); ("text", JStr "A")];
            JDict [("type", JStr "image")];
            JDict [("type", JStr "text"); ("text", JStr "B")]]).
  - reflexivity.
  - reflexivity.
Defined.

(** A result whose only part is [text]-typed with an empty text comes
    back as the JSON dump, although a [text]-typed part exists; and an
    empty text between two others leaves no empty line. *)
Lemma extract_text_skips_empty_texts :
  extract_text
    [("content", JList [JDict [("type", JStr "text"); ("text", JStr "")]])]
  = Ok (Fmt.js "{" ++ Py.nl
        ++ Fmt.js "  'content': [" ++ Py.nl
        ++ Fmt.js "    {" ++ Py.nl
        ++ Fmt.js "      'type': 'text'," ++ Py.nl
        ++ Fmt.js "      'text': ''" ++ Py.nl
        ++ Fmt.js "    }" ++ Py.nl
        ++ Fmt.js "  ]" ++ Py.nl
        ++ Fmt.js "}")
  /\ extract_text
       [("content",
         JList [JDict [("type", JStr "text"); ("text", JStr "A")];
                JDict [("type", JStr "text"); ("text", JStr "")];
                JDict [("type", JStr "text"); ("text", JStr "B")]])]
     = Ok ("A" ++ Py.nl ++ "B").
Proof. split; reflexivity. Qed.

(** ** The protocol client *)

Section ClientProperties.

Variable json_loads : string -> result string json.
Variable http_post : request -> result string response.

(** C5, as the code has it.  When the validated result of [tools/list]
    has a [tools] value that is not a list, [list_tools] fails with an
    [MCPError] whose text ends in the indented dump of the result cut to
    800 characters; when the result has no [tools] field it returns the
    empty list; when [tools] is a list it returns that list. *)
Theorem list_tools_shape (self self' : MCP) (res : dict) :
  _rpc json_loads http_post "tools/list" None self = (Ok res, self') ->
  (forall v, dict_get "tools" res = Some v ->
             (forall l, v <> JList l) ->
             exists preview,
               list_tools json_loads http_post self
               = (Raise (MCPError ("Invalid tools/list shape:" ++ Py.nl ++ preview)),
                  self')
               /\ preview = Py.take 800 (Fmt.json_dumps (JDict res))
               /\ String.length preview <= 800)
  /\ (dict_get "tools" res = None ->
      list_tools json_loads http_post self = (Ok [], self'))
  /\ (forall l, dict_get "tools" res = Some (JList l) ->
                list_tools json_loads http_post self = (Ok l, self')).
Proof.
  intros Hrpc; unfold list_tools, get_default; rewrite Hrpc.
  repeat split.
  - intros v Hv Hnl; rewrite Hv.
    exists (Py.take 800 (Fmt.json_dumps (JDict res))).
    repeat split; [|apply take_length].
    destruct v; try reflexivity.
    exfalso; eapply Hnl; reflexivity.
  - intros Hnone; rewrite Hnone; reflexivity.
  - intros l Hl; rewrite Hl; reflexivity.
Qed.

(** The fallback of [_rpc] for a content type that is neither JSON nor
    an event stream: a body that is no JSON text is reported as an
    unexpected content type, with a preview of at most 600 characters. *)
Lemma fallback_parse_failure (r : response) (e : string) :
  (status_code r <? 200)%Z || (300 <=? status_code r)%Z = false ->
  let ctype := Py.lower (match content_type r with Some c => c | None => "" end) in
  Py.contains "application/json" ctype = false ->
  Py.contains "text/event-stream" ctype = false ->
  json_loads (text r) = Raise e ->
  _rpc_response json_loads r
  = Raise (MCPError ("Unexpected Content-Type '" ++ ctype
                     ++ "'. Body preview:" ++ Py.nl ++ body_preview r))
  /\ String.length (body_preview r) <= 600.
Proof.
  intros Hst ctype Hj Hs He.
  unfold _rpc_response; rewrite Hst; fold ctype; rewrite Hj, Hs, He.
  split; [reflexivity|].
  unfold body_preview.
  destruct (String.eqb (text r) ""); [simpl; lia | apply take_length].
Qed.

(** The same fallback with a body that parses and validates returns the
    result. *)
Lemma fallback_success (r : response) (doc : json) (res : dict) :
  (status_code r <? 200)%Z || (300 <=? status_code r)%Z = false ->
  let ctype := Py.lower (match content_type r with Some c => c | None => "" end) in
  Py.contains "application/json" ctype = false ->
  Py.contains "text/event-stream" ctype = false ->
  json_loads (text r) = Ok doc ->
  _unwrap_jsonrpc doc = Ok res ->
  _rpc_response json_loads r = Ok res.
Proof.
  intros Hst ctype Hj Hs Hd Hu.
  unfold _rpc_response; rewrite Hst; fold ctype; rewrite Hj, Hs, Hd, Hu.
  reflexivity.
Qed.

(** C8.  In that fallback a body that parses as JSON but fails envelope
    validation (an error reported by the server, an invalid envelope) is
    reported as an unexpected content type as well: the exception of the
    validation is caught together with those of the parse. *)
Theorem fallback_masks_envelope_errors (r : response) (doc : json) (e : exn) :
  (status_code r <? 200)%Z || (300 <=? status_code r)%Z = false ->
  let ctype := Py.lower (match content_type r with Some c => c | None => "" end) in
  Py.contains "application/json" ctype = false ->
  Py.contains "text/event-stream" ctype = false ->
  json_loads (text r) = Ok doc ->
  _unwrap_jsonrpc doc = Raise e ->
  _rpc_response json_loads r
  = Raise (MCPError ("Unexpected Content-Type '" ++ ctype
                     ++ "'. Body preview:" ++ Py.nl ++ body_preview r)).
Proof.
  intros Hst ctype Hj Hs Hd Hu.
  unfold _rpc_response; rewrite Hst; fold ctype; rewrite Hj, Hs, Hd, Hu.
  reflexivity.
Qed.

End ClientProperties.

(** The failing input of C8: a 200 response of type [text/plain] whose
    body is a JSON-RPC error.  The JSON and the event-stream paths report
    it as the server's error, the fallback does not. *)
Lemma fallback_masks_envelope_errors_witness :
  _rpc_response sample_loads
    {| status_code := 200; content_type := Some "text/plain"; text := error_body |}
  = Raise (MCPError ("Unexpected Content-Type 'text/plain'. Body preview:"
                     ++ Py.nl ++ error_body))
  /\ _rpc_response sample_loads
       {| status_code := 200; content_type := Some "application/json";
          text := error_body |}
     = Raise (MCPError "MCP error -32601: Method not found")
  /\ _rpc_response sample_loads
       {| status_code := 200; content_type := Some "text/event-stream";
          text := "data: " ++ error_body ++ Py.nl ++ Py.nl |}
     = Raise (MCPError "MCP error -32601: Method not found").
Proof.
  split; [|split; reflexivity].
  apply (fallback_masks_envelope_errors sample_loads
           {| status_code := 200; content_type := Some "text/plain";
              text := error_body |}
           (JDict [("jsonrpc", JStr "2.0");
                   ("error", JDict [("code", JInt (-32601));
                                    ("message", JStr "Method not found")])])
           (MCPError "MCP error -32601: Method not found")).
  - reflexivity.
  - reflexivity.
  - reflexivity.
  - reflexivity.
  - reflexivity.
Defined.

Lemma list_tools_shape_witness :
  fst (list_tools sample_loads (serve "application/json" tools_not_a_list)
         (MCP_init XW_MCP None))
  = Raise (MCPError ("Invalid tools/list shape:" ++ Py.nl
                     ++ Fmt.js "{" ++ Py.nl
                     ++ Fmt.js "  'tools': 'none'" ++ Py.nl
                     ++ Fmt.js "}")).
Proof.
  destruct (list_tools_shape sample_loads
              (serve "application/json" tools_not_a_list)
              (MCP_init XW_MCP None)
              (snd (_rpc sample_loads (serve "application/json" tools_not_a_list)
                      "tools/list" None (MCP_init XW_MCP None)))
              [("tools", JStr "none")] eq_refl) as [H _].
  destruct (H (JStr "none") eq_refl) as [preview [Heq [Hp _]]].
  - intros l; discriminate.
  - rewrite Heq, Hp; reflexivity.
Defined.

(** A result without a [tools] field: [list_tools] returns the empty
    list and raises nothing. *)
Lemma list_tools_absent_field_returns_empty :
  fst (list_tools sample_loads (serve "application/json" no_tools_field)
         (MCP_init XW_MCP None))
  = Ok [].
Proof. reflexivity. Qed.

(** ** Request ids *)

Section RequestIds.

Variable json_loads : string -> result string json.
Variable http_post : request -> result string response.

Local Abbreviation run_op' := (run_op json_loads http_post).
Local Abbreviation run_ops' := (run_ops json_loads http_post).

(** Every call of [_rpc], whatever its outcome, posts one request with
    the next id and leaves the counter on that id. *)
Lemma rpc_posts_next_id (method : string) (params : option json) (self : MCP) :
  let self' := snd (_rpc json_loads http_post method params self) in
  exists req,
    http self' = (http self ++ [req])%list
    /\ request_id req = Some (_id self + 1)%Z
    /\ _id self' = (_id self + 1)%Z.
Proof.
  unfold _rpc; simpl.
  match goal with
  | |- context [http_post ?r] => exists r; destruct (http_post r)
  end; simpl; auto.
Qed.

Lemma run_op_posts_next_id (op : client_op) (self : MCP) :
  exists req,
    http (run_op' self op) = (http self ++ [req])%list
    /\ request_id req = Some (_id self + 1)%Z
    /\ _id (run_op' self op) = (_id self + 1)%Z.
Proof.
  destruct op as [|name arguments|method params]; simpl.
  - unfold list_tools.
    pose proof (rpc_posts_next_id "tools/list" None self) as H; simpl in H.
    destruct (_rpc json_loads http_post "tools/list" None self) as [r self'].
    simpl in H.
    destruct r as [res|e]; [|exact H].
    destruct (get_default "tools" (JList []) res); exact H.
  - apply rpc_posts_next_id.
  - apply rpc_posts_next_id.
Qed.

Lemma run_ops_ids (ops : list client_op) (self : MCP) :
  map request_id (http (run_ops' ops self))
  = (map request_id (http self)
     ++ map (fun k => Some (_id self + Z.of_nat k)%Z) (seq 1 (length ops)))%list
  /\ _id (run_ops' ops self) = (_id self + Z.of_nat (length ops))%Z.
Proof.
  revert self; induction ops as [|op ops IH]; intros self.
  - simpl; rewrite app_nil_r; split; [reflexivity | lia].
  - cbn [run_ops fold_left length].
    destruct (run_op_posts_next_id op self) as [req [Hh [Hid Hc]]].
    destruct (IH (run_op' self op)) as [IH1 IH2]; unfold run_ops in IH1, IH2.
    rewrite IH1, IH2, Hh, Hc, map_app; simpl map at 2; rewrite Hid.
    split; [|lia].
    rewrite <- app_assoc; f_equal; simpl app.
    cbn [seq map]; f_equal.
    rewrite <- (seq_shift (length ops) 1), map_map.
    apply map_ext; intros k; f_equal; lia.
Qed.

(** C9.  A new client has its counter on 0.  After any sequence of
    operations on it, the requests it posted carry the ids 1, 2, 3, ...
    in the order they were posted: the first carries 1, and of any two
    requests the later one carries the larger id, so no id is used
    twice. *)
Theorem request_ids_count_up (u : string) (headers : option (list (string * string)))
    (ops : list client_op) :
  let self := run_ops' ops (MCP_init u headers) in
  _id (MCP_init u headers) = 0%Z
  /\ map request_id (http self)
     = map (fun k => Some (Z.of_nat k)) (seq 1 (length ops))
  /\ (forall i j ri rj,
         i < j ->
         nth_error (http self) i = Some ri ->
         nth_error (http self) j = Some rj ->
         exists a b,
           request_id ri = Some a /\ request_id rj = Some b /\ (a < b)%Z).
Proof.
  intros self.
  assert (Hids : map request_id (http self)
                 = map (fun k => Some (Z.of_nat k)) (seq 1 (length ops))).
  { destruct (run_ops_ids ops (MCP_init u headers)) as [H _].
    unfold self; rewrite H; simpl.
    apply map_ext; intros k; f_equal. }
  split; [reflexivity|]; split; [exact Hids|].
  intros i j ri rj Hij Hi Hj.
  assert (Hnth : forall n r, nth_error (http self) n = Some r ->
                             request_id r = Some (Z.of_nat (S n))).
  { intros n r Hn.
    pose proof (f_equal (fun l => nth_error l n) Hids) as Hm; simpl in Hm.
    rewrite !nth_error_map, Hn in Hm; simpl in Hm.
    destruct (nth_error (seq 1 (length ops)) n) as [k|] eqn:E;
      [|discriminate].
    assert (Hlt : n < length (seq 1 (length ops))).
    { apply nth_error_Some; rewrite E; discriminate. }
    rewrite length_seq in Hlt.
    apply nth_error_nth with (d := 0) in E.
    rewrite seq_nth in E by exact Hlt; subst k.
    simpl in Hm; injection Hm as ->; reflexivity. }
  exists (Z.of_nat (S i)), (Z.of_nat (S j)).
  repeat split; [apply (Hnth i ri Hi) | apply (Hnth j rj Hj) | lia].
Qed.

End RequestIds.

(** ** The tool-calling loop *)

Section AssistantProperties.

Variable json_loads : string -> result string json.
Variable http_post : request -> result string response.
Variable chat_create : chat_request -> result exn chat_message.
Variable OPENAI_MODEL : string.

Local Abbreviation run_tool_call' := (run_tool_call json_loads http_post).
Local Abbreviation run_tool_calls' := (run_tool_calls json_loads http_post).
Local Abbreviation tool_rounds' :=
  (tool_rounds json_loads http_post chat_create OPENAI_MODEL).
Local Abbreviation ask' := (ask json_loads http_post chat_create OPENAI_MODEL).

Lemma run_tool_call_appends (tc : tool_call) (messages : list message) (m : MCP) :
  exists out m',
    run_tool_call' tc (messages, m) = ((messages ++ [out])%list, m')
    /\ answers tc out.
Proof.
  unfold run_tool_call, answers.
  destruct (json_loads (tc_arguments tc)) as [fargs|e].
  - destruct (call_tool json_loads http_post (tc_name tc) fargs m) as [r m'].
    eauto.
  - eauto.
Qed.

Lemma run_tool_calls_appends (tcs : list tool_call) (messages : list message)
    (m : MCP) :
  exists outs m',
    run_tool_calls' tcs (messages, m) = ((messages ++ outs)%list, m')
    /\ Forall2 answers tcs outs.
Proof.
  revert messages m; induction tcs as [|tc tcs IH]; intros messages m.
  - exists [], m; rewrite app_nil_r; split; [reflexivity | constructor].
  - destruct (run_tool_call_appends tc messages m) as [out [m1 [H1 Ha]]].
    destruct (IH (messages ++ [out])%list m1) as [outs [m2 [H2 Hf]]].
    exists (out :: outs), m2; split.
    + cbn [run_tool_calls fold_left].
      rewrite H1; unfold run_tool_calls in H2; rewrite H2.
      rewrite <- app_assoc; reflexivity.
    + constructor; assumption.
Qed.

(** The rounds after the first completion: at most [n] further calls of
    the backend, and no exception but one of the backend's. *)
Lemma tool_rounds_calls (n : nat) (msg : chat_message) (messages : list message)
    (self : WeatherAssistant) :
  let out := tool_rounds' n msg messages self in
  (exists reqs, client (snd out) = (client self ++ reqs)%list /\ length reqs <= n)
  /\ (forall e, fst out = Raise e -> exists req, chat_create req = Raise e)
  /\ ((forall req, exists m, chat_create req = Ok m) ->
      exists answer, fst out = Ok answer).
Proof.
  revert msg messages self; induction n as [|n IH]; intros msg messages self.
  - simpl; repeat split.
    + exists []; rewrite app_nil_r; split; [reflexivity | simpl; lia].
    + discriminate.
    + eauto.
  - cbn [tool_rounds].
    destruct (requested_calls msg) as [|tc tcs].
    { simpl; repeat split.
      - exists []; rewrite app_nil_r; split; [reflexivity | simpl; lia].
      - discriminate.
      - eauto. }
    destruct (run_tool_calls' (tc :: tcs)
                (messages, mcp self)) as [messages1 m1].
    unfold create; cbn [client mcp oa_tools].
    match goal with
    | |- context [chat_create ?r] =>
        set (req := r); destruct (chat_create req) as [msg'|e] eqn:Hreq
    end.
    + match goal with
      | |- context [tool_rounds' n msg' ?ms ?s] =>
          destruct (IH msg' ms s) as [[reqs [Hc Hlen]] [Hr Ht]];
          set (out := tool_rounds' n msg' ms s) in *
      end.
      cbn [client] in Hc.
      repeat split.
      * exists (req :: reqs); split; [|simpl; lia].
        rewrite Hc, <- app_assoc; reflexivity.
      * exact Hr.
      * exact Ht.
    + simpl; repeat split.
      * exists [req]; split; [reflexivity | simpl; lia].
      * intros e' He'; injection He' as <-; eauto.
      * intros Htot; destruct (Htot req) as [m' Hm'].
        rewrite Hreq in Hm'; discriminate.
Qed.

(** When every reply of the backend requests tool calls, the rounds are
    used up: exactly [n] further calls, and the text returned is that of
    the reply to the last of them. *)
Lemma tool_rounds_exhausted (n : nat) (msg : chat_message)
    (messages : list message) (self : WeatherAssistant) :
  (forall req, exists m, chat_create req = Ok m /\ requested_calls m <> []) ->
  requested_calls msg <> [] ->
  let out := tool_rounds' n msg messages self in
  exists reqs final,
    client (snd out) = (client self ++ reqs)%list
    /\ length reqs = n
    /\ match rev reqs with
       | [] => final = msg
       | req :: _ => chat_create req = Ok final
       end
    /\ requested_calls final <> []
    /\ fst out = Ok (content_or_placeholder final).
Proof.
  intros Hall; revert msg messages self.
  induction n as [|n IH]; intros msg messages self Hmsg.
  - exists [], msg; simpl; rewrite app_nil_r; auto.
  - cbn [tool_rounds].
    destruct (requested_calls msg) as [|tc tcs]; [contradiction|].
    destruct (run_tool_calls' (tc :: tcs)
                (messages, mcp self)) as [messages1 m1].
    unfold create; cbn [client mcp oa_tools].
    match goal with
    | |- context [chat_create ?r] =>
        set (req := r); destruct (Hall req) as [msg' [Hreq Hcalls]]
    end.
    rewrite Hreq.
    match goal with
    | |- context [tool_rounds' n msg' ?ms ?s] =>
        destruct (IH msg' ms s Hcalls)
          as [reqs [final [Hc [Hlen [Hlast [Hfc Hres]]]]]];
        set (out := tool_rounds' n msg' ms s) in *
    end.
    cbn [client] in Hc.
    exists (req :: reqs), final; repeat split.
    + rewrite Hc, <- app_assoc; reflexivity.
    + simpl; lia.
    + simpl; destruct (rev reqs) as [|r rs]; simpl.
      * subst final; exact Hreq.
      * exact Hlast.
    + exact Hfc.
    + exact Hres.
Qed.

(** C1.  A run of [ask] calls the backend at least once and at most
    three times: the first completion and at most two further rounds.
    It returns whenever the backend answers.  When every reply of the
    backend requests tool calls, [ask] makes exactly three calls and
    returns the text of the third reply, although that reply still
    requests tools. *)
Theorem ask_calls_backend_at_most_three_times (question : string)
    (self : WeatherAssistant) :
  let out := ask' question self in
  (exists reqs,
      client (snd out) = (client self ++ reqs)%list
      /\ 1 <= length reqs <= 3)
  /\ ((forall req, exists m, chat_create req = Ok m) ->
      exists answer, fst out = Ok answer)
  /\ ((forall req, exists m, chat_create req = Ok m /\ requested_calls m <> []) ->
      exists reqs req3 m3,
        client (snd out) = (client self ++ reqs)%list
        /\ length reqs = 3
        /\ nth_error reqs 2 = Some req3
        /\ chat_create req3 = Ok m3
        /\ requested_calls m3 <> []
        /\ fst out = Ok (content_or_placeholder m3)).
Proof.
  unfold ask, create; cbn [client mcp oa_tools].
  match goal with
  | |- context [chat_create ?r] => set (req := r)
  end.
  destruct (chat_create req) as [msg|e] eqn:Hreq.
  - match goal with
    | |- context [tool_rounds' 2 msg ?ms ?s] =>
        pose proof (tool_rounds_calls 2 msg ms s) as Hcalls;
        pose proof (fun Hall Hm => tool_rounds_exhausted 2 msg ms s Hall Hm) as Hex;
        set (out := tool_rounds' 2 msg ms s) in *
    end.
    cbn zeta in Hcalls, Hex; cbn [client] in Hcalls, Hex.
    destruct Hcalls as [[reqs [Hc Hlen]] [_ Ht]].
    cbn zeta; repeat split.
    + exists (req :: reqs); split; [|simpl; lia].
      rewrite Hc, <- app_assoc; reflexivity.
    + exact Ht.
    + intros Hall.
      assert (Hm : requested_calls msg <> []).
      { destruct (Hall req) as [m [Hm1 Hm2]].
        rewrite Hreq in Hm1; injection Hm1 as <-; exact Hm2. }
      destruct (Hex Hall Hm) as [reqs' [final [Hc' [Hlen' [Hlast [Hfc Hres]]]]]].
      destruct reqs' as [|r1 [|r2 [|r3 rs]]]; try discriminate.
      simpl in Hlast.
      exists [req; r1; r2], r2, final; repeat split; auto.
      rewrite Hc', <- app_assoc; reflexivity.
  - cbn zeta; simpl; repeat split.
    + exists [req]; split; [reflexivity | simpl; lia].
    + intros Htot; destruct (Htot req) as [m Hm].
      rewrite Hreq in Hm; discriminate.
    + intros Hall; destruct (Hall req) as [m [Hm _]].
      rewrite Hreq in Hm; discriminate.
Qed.





End AssistantProperties.


(** ** A run of the loop on sample surroundings *)

Example eager_run_result :
  fst eager_run = Ok "(no content)"
  /\ length (client (snd eager_run)) = 3
  /\ map request_id (http (mcp (snd eager_run))) = [Some 1%Z; Some 2%Z].
Proof. repeat split; reflexivity. Qed.

Example eager_run_second_request :
  option_map cr_messages (nth_error (client (snd eager_run)) 1)
  = Some
      [ RoleMsg "system" SYSTEM_PROMPT;
        RoleMsg "user" "Weather in Oslo?";
        BackendMsg
          {| content := None;
             tool_calls :=
               Some [ {| tc_id := "call_1"; tc_name := "get_weather";
                         tc_arguments := "oops" |};
                      {| tc_id := "call_2"; tc_name := "get_weather";
                         tc_arguments := Fmt.js "{'city':'Oslo'}" |} ] |};
        ToolMsg "call_1" "Bad args: Expecting value: line 1 column 1 (char 0)";
        ToolMsg "call_2"
          "Error calling get_weather: Network error contacting MCP: [Errno 111] Connection refused" ].
Proof. reflexivity. Qed.

Example request_ids_of_three_operations :
  map request_id
    (http (run_ops sample_loads unreachable
             [OpListTools; OpCallTool "get_weather" (JDict []); OpListTools]
             (MCP_init XW_MCP None)))
  = [Some 1%Z; Some 2%Z; Some 3%Z].
Proof. reflexivity. Qed.

(** * Further properties *)

(** ** Envelope validation, all cases *)

(** [_unwrap_jsonrpc] returns a result exactly for an object that carries
    the version marker, no truthy [error], and an object as [result]. *)
Theorem unwrap_ok_iff (doc : json) (res : dict) :
  _unwrap_jsonrpc doc = Ok res
  <-> exists d,
        doc = JDict d
        /\ dict_get "jsonrpc" d = Some (JStr "2.0")
        /\ truthy (get "error" d) = false
        /\ dict_get "result" d = Some (JDict res).
Proof.
  split.
  - unfold _unwrap_jsonrpc.
    destruct doc as [| | | | | |d]; try discriminate.
    destruct (dict_get "jsonrpc" d) as [[| | | |v| |]|] eqn:Hv; try discriminate.
    destruct (String.eqb_spec v "2.0") as [->|]; [|discriminate].
    destruct (truthy (get "error" d)) eqn:Ht.
    + destruct (get "error" d); discriminate.
    + unfold get at 1.
      destruct (dict_get "result" d) as [[| | | | | |r]|] eqn:Hr; try discriminate.
      intros H; injection H as <-; eauto.
  - intros [d [-> [Hv [Ht Hr]]]].
    unfold _unwrap_jsonrpc; rewrite Hv, Ht; simpl.
    unfold get; rewrite Hr; reflexivity.
Qed.

(** Every failure of [_unwrap_jsonrpc] is an [MCPError], one case apart:
    an [error] field that is truthy but no object makes the statement
    that reads its code raise [AttributeError]. *)
Theorem unwrap_failures (doc : json) (e : exn) :
  _unwrap_jsonrpc doc = Raise e ->
  (exists msg, e = MCPError msg)
  \/ (exists d,
         doc = JDict d
         /\ dict_get "jsonrpc" d = Some (JStr "2.0")
         /\ truthy (get "error" d) = true
         /\ is_dict (get "error" d) = false
         /\ e = AttributeError ("'" ++ type_name (get "error" d)
                                ++ "' object has no attribute 'get'")).
Proof.
  unfold _unwrap_jsonrpc.
  destruct doc as [| | | | | |d];
    try (intros H; injection H as <-; left; eauto; fail).
  destruct (dict_get "jsonrpc" d) as [[| | | |v| |]|] eqn:Hv;
    try (intros H; injection H as <-; left; eauto; fail).
  destruct (String.eqb_spec v "2.0") as [->|];
    [|intros H; injection H as <-; left; eauto].
  destruct (truthy (get "error" d)) eqn:Ht.
  - destruct (get "error" d) eqn:He;
      intros H; injection H as <-;
      try (left; eauto; fail);
      right; exists d; repeat split; rewrite ?He; auto.
  - destruct (get "result" d);
      intros H; try discriminate; injection H as <-; left; eauto.
Qed.

Lemma unwrap_failures_witness :
  _unwrap_jsonrpc (JDict [("jsonrpc", JStr "2.0"); ("error", JStr "boom")])
  = Raise (AttributeError "'str' object has no attribute 'get'")
  /\ ((exists msg, AttributeError "'str' object has no attribute 'get'"
                   = MCPError msg)
      \/ (exists d,
             JDict [("jsonrpc", JStr "2.0"); ("error", JStr "boom")] = JDict d
             /\ dict_get "jsonrpc" d = Some (JStr "2.0")
             /\ truthy (get "error" d) = true
             /\ is_dict (get "error" d) = false
             /\ AttributeError "'str' object has no attribute 'get'"
                = AttributeError ("'" ++ type_name (get "error" d)
                                  ++ "' object has no attribute 'get'"))).
Proof.
  split; [reflexivity|].
  apply (unwrap_failures
           (JDict [("jsonrpc", JStr "2.0"); ("error", JStr "boom")])
           (AttributeError "'str' object has no attribute 'get'")).
  reflexivity.
Defined.

(** ** The event-stream scan, further *)

(** Comments and lines that are neither data lines nor blank have no
    effect on the scan: it ends in the same state without them. *)
Lemma scan_skips_ignored (lines : list string) (st : sse_state) :
  fold_left sse_step lines st
  = fold_left sse_step (filter (fun l => negb (is_ignored_line l)) lines) st.
Proof.
  revert st; induction lines as [|l lines IH]; intros st; [reflexivity|].
  cbn [fold_left filter].
  destruct (is_ignored_line l) eqn:Hi; cbn [negb fold_left].
  - rewrite <- IH; f_equal.
    unfold is_ignored_line, is_blank_line in Hi; unfold sse_step.
    destruct (Py.startswith ":" l); [reflexivity|].
    destruct (Py.startswith "data:" l); [discriminate|].
    destruct (String.eqb (Py.strip l) ""); [discriminate | reflexivity].
  - apply IH.
Qed.

Section SseFurther.

Variable json_loads : string -> result string json.

(** Two bodies whose lines differ only in comments and in lines that are
    neither data lines nor blank are parsed to the same outcome. *)
Theorem sse_ignores_comments_and_other_fields (body1 body2 : string) :
  filter (fun l => negb (is_ignored_line l)) (Py.splitlines body1)
  = filter (fun l => negb (is_ignored_line l)) (Py.splitlines body2) ->
  _parse_sse_to_json json_loads body1 = _parse_sse_to_json json_loads body2.
Proof.
  intros H.
  unfold _parse_sse_to_json, sse_last_data.
  rewrite (scan_skips_ignored (Py.splitlines body1)),
          (scan_skips_ignored (Py.splitlines body2)), H.
  reflexivity.
Qed.

(** A body without any data line (comments, heartbeats, other fields,
    blank lines, or nothing) fails with the error for a stream without
    data, and [json.loads] is not consulted. *)
Theorem sse_without_data_lines (body : string) :
  forallb (fun l => negb (is_data_line l)) (Py.splitlines body) = true ->
  _parse_sse_to_json json_loads body = Raise (MCPError NO_DATA).
Proof.
  intros H.
  unfold _parse_sse_to_json, sse_last_data.
  pose proof (scan_no_data (Py.splitlines body) sse_init eq_refl H) as Hs.
  unfold scan in Hs; rewrite Hs; reflexivity.
Qed.

(** The last event with data decides.  Take a body whose lines, as the
    client splits them, are: any lines that end on a blank line (or none),
    then the lines of one event (none blank, at least one data line,
    comments and other fields in between), then nothing at all, or a
    blank line followed by lines that are no data lines.  The parser
    then hands [json.loads] the data of that event, its data values
    joined by newlines: it returns the document when that text loads and
    fails with an [MCPError] when it does not.  What came before the
    event plays no part, and the stream may end right after the event's
    last line. *)
Theorem sse_last_event_wins (body : string) (pre ev tail : list string) :
  Py.splitlines body = (pre ++ ev ++ tail)%list ->
  at_boundary pre = true ->
  event_lines ev = true ->
  trailing_lines tail = true ->
  sse_last_data body = Some (event_data ev)
  /\ (forall doc, json_loads (event_data ev) = Ok doc ->
                  event_data ev <> "" ->
                  _parse_sse_to_json json_loads body = Ok doc)
  /\ (forall e, json_loads (event_data ev) = Raise e ->
                exists msg,
                  _parse_sse_to_json json_loads body = Raise (MCPError msg)).
Proof.
  intros Hlines Hpre Hev Htail.
  pose proof (last_data_of_last_event body pre ev tail Hlines Hpre Hev Htail)
    as Hlast.
  fold (event_data ev) in Hlast.
  split; [exact Hlast|].
  unfold _parse_sse_to_json; rewrite Hlast.
  split.
  - intros doc Hdoc Hne.
    apply String.eqb_neq in Hne; rewrite Hne, Hdoc; reflexivity.
  - intros e He.
    destruct (String.eqb (event_data ev) ""); [eauto|].
    rewrite He; eauto.
Qed.

End SseFurther.

Lemma sse_last_event_wins_witness :
  _parse_sse_to_json sample_loads three_events
  = Ok (envelope 3 [("n", JInt 3)]).
Proof.
  refine (proj1 (proj2
    (sse_last_event_wins sample_loads three_events
       [ ": connected"; "data: " ++ Fmt.js "{'city':'Oslo'}"; "";
         "event: message";
         "data:" ++ Fmt.js "{'jsonrpc':'2.0','id':1,'result':{}}";
         ": heartbeat"; "" ]
       [ ": heartbeat"; "data: " ++ Fmt.js "{'jsonrpc':'2.0',";
         ": heartbeat"; "data: " ++ Fmt.js "'id':3,'result':{'n':3}}" ]
       [] _ _ _ _)) _ _ _).
  - reflexivity.
  - reflexivity.
  - reflexivity.
  - reflexivity.
  - reflexivity.
  - discriminate.
Defined.

Lemma sse_ignores_comments_and_other_fields_witness :
  _parse_sse_to_json sample_loads three_events
  = _parse_sse_to_json sample_loads
      ("data: " ++ Fmt.js "{'city':'Oslo'}" ++ Py.nl
       ++ Py.nl
       ++ "data:" ++ Fmt.js "{'jsonrpc':'2.0','id':1,'result':{}}" ++ Py.nl
       ++ Py.nl
       ++ "data: " ++ Fmt.js "{'jsonrpc':'2.0'," ++ Py.nl
       ++ "data: " ++ Fmt.js "'id':3,'result':{'n':3}}").
Proof.
  apply (sse_ignores_comments_and_other_fields sample_loads).
  reflexivity.
Defined.

Lemma sse_without_data_lines_witness :
  _parse_sse_to_json sample_loads
    (": ping" ++ Py.nl ++ Py.nl ++ "event: done" ++ Py.nl ++ "retry: 5" ++ Py.nl)
  = Raise (MCPError NO_DATA).
Proof.
  apply (sse_without_data_lines sample_loads).
  reflexivity.
Defined.

(** ** Request headers *)

Lemma header_get_set (k k' v : string) (h : list (string * string)) :
  header_get k (header_set k' v h)
  = if String.eqb k k' then Some v else header_get k h.
Proof.
  induction h as [|[k0 v0] h IH]; simpl.
  - destruct (String.eqb k k'); reflexivity.
  - destruct (String.eqb_spec k' k0) as [->|Hne]; simpl.
    + destruct (String.eqb k k0); reflexivity.
    + rewrite IH.
      destruct (String.eqb_spec k k') as [->|]; [|reflexivity].
      destruct (String.eqb_spec k' k0); [contradiction | reflexivity].
Qed.

Lemma header_get_app (k : string) (h1 h2 : list (string * string)) :
  header_get k (h1 ++ h2)
  = match header_get k h1 with
    | Some v => Some v
    | None => header_get k h2
    end.
Proof.
  induction h1 as [|[k0 v0] h1 IH]; simpl; [reflexivity|].
  destruct (String.eqb k k0); [reflexivity | exact IH].
Qed.

(** The headers of a request are the fixed ones overridden by the extra
    headers of the client: a key of the extra headers reads its (last)
    extra value, any other key reads the fixed value. *)
Theorem header_merge_get (k : string) (base extra : list (string * string)) :
  header_get k (header_merge base extra)
  = match header_get k (rev extra) with
    | Some v => Some v
    | None => header_get k base
    end.
Proof.
  unfold header_merge; revert base.
  induction extra as [|[k' v'] extra IH]; intros base; [reflexivity|].
  cbn [fold_left fst snd rev].
  rewrite IH, header_get_app, header_get_set; simpl.
  destruct (header_get k (rev extra)); [reflexivity|].
  destruct (String.eqb k k'); reflexivity.
Qed.

(** ** The protocol client, further *)

Section ClientFurther.

Variable json_loads : string -> result string json.
Variable http_post : request -> result string response.

Local Abbreviation rpc' := (_rpc json_loads http_post).
Local Abbreviation list_tools' := (list_tools json_loads http_post).
Local Abbreviation call_tool' := (call_tool json_loads http_post).

(** What one call of [_rpc] puts on the wire, and what it leaves of the
    client: one request to the client's URL, a JSON-RPC 2.0 document
    with the method and the parameters ([{}] when none are given), sent
    with the fixed headers overridden by the client's extra headers; the
    URL and the extra headers of the client stay as they are. *)
Theorem rpc_posted_request (method : string) (params : option json) (self : MCP) :
  let self' := snd (rpc' method params self) in
  url self' = url self
  /\ extra_headers self' = extra_headers self
  /\ exists req,
       http self' = (http self ++ [req])%list
       /\ req_url req = url self
       /\ request_field "jsonrpc" req = Some (JStr "2.0")
       /\ request_field "method" req = Some (JStr method)
       /\ request_field "params" req = Some (params_or_empty params)
       /\ req_headers req
          = header_merge
              [("Content-Type", "application/json");
               ("Accept", "application/json, text/event-stream");
               ("Connection", "keep-alive")]
              (extra_headers self).
Proof.
  unfold _rpc; simpl.
  match goal with
  | |- context [http_post ?r] => destruct (http_post r); simpl
  end;
    (split; [reflexivity|]; split; [reflexivity|];
     eexists; split; [reflexivity|]; repeat split).
Qed.

(** [call_tool] sends [tools/call] with the name and the arguments as
    given, whatever the arguments are; [list_tools] sends [tools/list]
    with empty parameters. *)
Theorem operations_on_the_wire (name : string) (arguments : json) (self : MCP) :
  (exists req,
      http (snd (call_tool' name arguments self)) = (http self ++ [req])%list
      /\ request_field "method" req = Some (JStr "tools/call")
      /\ request_field "params" req
         = Some (JDict [("name", JStr name); ("arguments", arguments)]))
  /\ (exists req,
         http (snd (list_tools' self)) = (http self ++ [req])%list
         /\ request_field "method" req = Some (JStr "tools/list")
         /\ request_field "params" req = Some (JDict [])).
Proof.
  split.
  - unfold call_tool, _rpc; simpl.
    match goal with
    | |- context [http_post ?r] => destruct (http_post r); simpl
    end; eexists; repeat split.
  - unfold list_tools, _rpc; simpl.
    match goal with
    | |- context [http_post ?r] =>
        destruct (http_post r) as [resp|msg]; simpl
    end.
    + destruct (_rpc_response json_loads resp) as [res|e]; simpl;
        [destruct (get_default "tools" (JList []) res); simpl|];
        eexists; repeat split.
    + eexists; repeat split.
Qed.

(** A response with a status outside 200..299 fails both operations
    with the status and a preview of the body of at most 600 characters
    (a marker when the body is empty), whatever the content type and the
    body are. *)
Theorem http_status_error (r : response) (name : string) (arguments : json)
    (self : MCP) :
  (forall req, http_post req = Ok r) ->
  (status_code r < 200 \/ 300 <= status_code r)%Z ->
  let e := MCPError ("HTTP " ++ Py.str_of_Z (status_code r)
                     ++ " from MCP; body preview:" ++ Py.nl ++ body_preview r) in
  fst (list_tools' self) = Raise e
  /\ fst (call_tool' name arguments self) = Raise e
  /\ String.length (body_preview r) <= 600
  /\ (text r = "" -> body_preview r = "<empty body>").
Proof.
  intros Hpost Hst e.
  assert (Hb : (status_code r <? 200)%Z || (300 <=? status_code r)%Z = true).
  { apply orb_true_iff; destruct Hst; [left | right];
      [apply Z.ltb_lt | apply Z.leb_le]; assumption. }
  assert (Hresp : _rpc_response json_loads r = Raise e).
  { unfold _rpc_response; rewrite Hb; reflexivity. }
  repeat split.
  - unfold list_tools, _rpc; simpl; rewrite Hpost, Hresp; reflexivity.
  - unfold call_tool, _rpc; simpl; rewrite Hpost, Hresp; reflexivity.
  - unfold body_preview.
    destruct (String.eqb (text r) ""); [simpl; lia | apply take_length].
  - intros Ht; unfold body_preview; rewrite Ht; reflexivity.
Qed.

End ClientFurther.

Lemma http_status_error_witness :
  fst (call_tool sample_loads (answer_with unavailable) "get_weather" (JDict [])
         (MCP_init XW_MCP None))
  = Raise (MCPError ("HTTP 503 from MCP; body preview:" ++ Py.nl
                     ++ "Service Unavailable")).
Proof.
  destruct (http_status_error sample_loads (answer_with unavailable) unavailable
              "get_weather" (JDict []) (MCP_init XW_MCP None))
    as [_ [H _]].
  - reflexivity.
  - right; simpl; lia.
  - exact H.
Defined.

(** ** One document, two framings *)

Lemma no_linebreak_app (a b : string) :
  no_linebreak a = true -> no_linebreak b = true -> no_linebreak (a ++ b) = true.
Proof.
  induction a as [|c a IH]; simpl; intros Ha Hb; [exact Hb|].
  apply andb_true_iff in Ha as [Hc Ha].
  rewrite Hc; simpl; apply IH; assumption.
Qed.

Section Framings.

Variable json_loads : string -> result string json.

(** A JSON text on one line that loads as a document gives the same
    outcome whether the server sends it as a JSON body or as the single
    event of an event stream: in both cases the outcome is the envelope
    validation of the document. *)
Theorem json_and_sse_framings_agree (status : Z) (payload : string) (doc : json) :
  (200 <= status < 300)%Z ->
  no_linebreak payload = true ->
  Py.lstrip payload = payload ->
  payload <> "" ->
  json_loads payload = Ok doc ->
  _rpc_response json_loads
    {| status_code := status; content_type := Some "application/json";
       text := payload |}
  = _unwrap_jsonrpc doc
  /\ _rpc_response json_loads
       {| status_code := status; content_type := Some "text/event-stream";
          text := "data: " ++ payload ++ Py.nl ++ Py.nl |}
     = _unwrap_jsonrpc doc.
Proof.
  intros Hst Hnb Hls Hne Hdoc.
  assert (Hb : (status <? 200)%Z || (300 <=? status)%Z = false).
  { apply orb_false_iff; split; [apply Z.ltb_ge | apply Z.leb_gt]; lia. }
  split.
  - unfold _rpc_response; cbn [status_code content_type text].
    rewrite Hb; simpl; rewrite Hdoc; reflexivity.
  - assert (Hlines : Py.splitlines ("data: " ++ payload ++ Py.nl ++ Py.nl)
                     = ["data: " ++ payload; ""]).
    { rewrite <- (append_assoc "data: " payload (Py.nl ++ Py.nl)).
      rewrite (splitlines_line_lf ("data: " ++ payload) Py.nl);
        [reflexivity|].
      apply (no_linebreak_app "data: " payload eq_refl Hnb). }
    assert (Hlast : sse_last_data ("data: " ++ payload ++ Py.nl ++ Py.nl)
                    = Some payload).
    { rewrite (last_data_of_last_event _ [] ["data: " ++ payload] [""] Hlines);
        try reflexivity.
      - simpl; unfold data_payload; simpl.
        rewrite Hls; reflexivity.
      - unfold event_lines; cbn [forallb existsb].
        assert (Hnb' : is_blank_line ("data: " ++ payload) = false).
        { destruct (is_blank_line ("data: " ++ payload)) eqn:Hbl; [|reflexivity].
          unfold is_blank_line in Hbl; apply String.eqb_eq in Hbl.
          cbn [append] in Hbl; apply strip_empty_head in Hbl; discriminate. }
        rewrite Hnb'; reflexivity. }
    assert (Hparse : _parse_sse_to_json json_loads
                       ("data: " ++ payload ++ Py.nl ++ Py.nl) = Ok doc).
    { unfold _parse_sse_to_json; rewrite Hlast.
      apply String.eqb_neq in Hne; rewrite Hne, Hdoc; reflexivity. }
    remember ("data: " ++ payload ++ Py.nl ++ Py.nl) as body eqn:Hbody.
    unfold _rpc_response; cbn [status_code content_type text].
    rewrite Hb; simpl; rewrite Hparse.
    destruct (_unwrap_jsonrpc doc); reflexivity.
Qed.

End Framings.

Lemma json_and_sse_framings_agree_witness :
  _rpc_response sample_loads
    {| status_code := 200; content_type := Some "application/json";
       text := no_tools_field |}
  = Ok []
  /\ _rpc_response sample_loads
       {| status_code := 200; content_type := Some "text/event-stream";
          text := "data: " ++ no_tools_field ++ Py.nl ++ Py.nl |}
     = Ok [].
Proof.
  apply (json_and_sse_framings_agree sample_loads 200 no_tools_field
           (envelope 1 [])).
  - lia.
  - reflexivity.
  - reflexivity.
  - discriminate.
  - reflexivity.
Defined.

(** ** Tool schemas *)

(** For descriptors that are all objects, [to_openai_tools] succeeds and
    emits one function tool per descriptor with a truthy name, in the
    order of the descriptors and under the same names; descriptors
    without a name (absent, empty, [null]) are left out. *)
Theorem to_openai_tools_names (mcp_tools : list json) :
  forallb is_dict mcp_tools = true ->
  exists out,
    to_openai_tools mcp_tools = Ok out
    /\ map tool_name out = filter truthy (map descriptor_name mcp_tools)
    /\ length out <= length mcp_tools.
Proof.
  induction mcp_tools as [|t rest IH]; intros H.
  - exists []; repeat split; simpl; lia.
  - simpl in H; apply andb_true_iff in H as [Ht Hrest].
    destruct (IH Hrest) as [out [Hout [Hnames Hlen]]].
    destruct t as [| | | | | |d]; try discriminate.
    cbn [to_openai_tools map descriptor_name filter].
    destruct (truthy (get "name" d)) eqn:Hn.
    + exists (function_tool d :: out); rewrite Hout; simpl.
      repeat split; [f_equal; exact Hnames | lia].
    + exists out; repeat split; [exact Hout | exact Hnames | simpl; lia].
Qed.

(** [to_openai_tools] fails exactly when some descriptor is no object,
    and then with the [AttributeError] of the first such descriptor;
    nothing of the catalog is returned. *)
Theorem to_openai_tools_fails_on_first_non_object (mcp_tools : list json) (e : exn) :
  to_openai_tools mcp_tools = Raise e
  <-> exists before t after,
        mcp_tools = (before ++ t :: after)%list
        /\ forallb is_dict before = true
        /\ is_dict t = false
        /\ e = AttributeError ("'" ++ type_name t
                               ++ "' object has no attribute 'get'").
Proof.
  split.
  - induction mcp_tools as [|t rest IH]; [discriminate|].
    destruct (is_dict t) eqn:Ht.
    + destruct t as [| | | | | |d]; try discriminate.
      cbn [to_openai_tools].
      intros H.
      assert (Hrest : to_openai_tools rest = Raise e).
      { destruct (truthy (get "name" d)); [|exact H].
        destruct (to_openai_tools rest); [discriminate | exact H]. }
      destruct (IH Hrest) as [before [t' [after [-> [Hb [Ht' He]]]]]].
      exists (JDict d :: before), t', after; repeat split; auto.
    + intros H; exists [], t, rest; repeat split; auto.
      destruct t; try discriminate; simpl in H; injection H as <-; reflexivity.
  - intros [before [t [after [-> [Hb [Ht ->]]]]]].
    induction before as [|b before IH]; simpl in *.
    + destruct t; try discriminate; reflexivity.
    + apply andb_true_iff in Hb as [Hb1 Hb2].
      destruct b as [| | | | | |d]; try discriminate.
      rewrite (IH Hb2); destruct (truthy (get "name" d)); reflexivity.
Qed.

Lemma to_openai_tools_names_witness :
  exists out,
    to_openai_tools
      [JDict [("name", JStr "get_weather"); ("description", JStr "Current weather")];
       JDict [("description", JStr "nameless")];
       JDict [("name", JStr ""); ("inputSchema", JDict [])];
       JDict [("name", JStr "get_alerts")]]
    = Ok out
    /\ map tool_name out = [JStr "get_weather"; JStr "get_alerts"]
    /\ length out <= 4.
Proof.
  apply (to_openai_tools_names
           [JDict [("name", JStr "get_weather"); ("description", JStr "Current weather")];
            JDict [("description", JStr "nameless")];
            JDict [("name", JStr ""); ("inputSchema", JDict [])];
            JDict [("name", JStr "get_alerts")]]).
  reflexivity.
Defined.

(** ** Text of a tool result, further *)

Lemma dumps_dict_nonempty (d : dict) : Fmt.json_dumps (JDict d) <> "".
Proof. destruct d; discriminate. Qed.

Lemma extract_text_ok_nonempty (tool_result : dict) (s : string) :
  extract_text tool_result = Ok s -> s <> "".
Proof.
  unfold extract_text.
  destruct (iterate (get_default "content" (JList []) tool_result))
    as [items|e]; [|discriminate].
  cbn [bind].
  destruct (join_values 0 (filter truthy (map part_text (filter is_text_part items))))
    as [kept|e]; [|discriminate].
  cbn [bind].
  destruct (String.eqb_spec (Py.join Py.nl kept) "") as [Hj|Hj];
    intros H; injection H as <-.
  - apply dumps_dict_nonempty.
  - exact Hj.
Qed.

(** [extract_text] never returns the empty string: without a non-empty
    text it returns the JSON dump, which is never empty. *)
Theorem extract_text_never_empty (tool_result : dict) (s : string) :
  extract_text tool_result = Ok s -> s <> "".
Proof. apply extract_text_ok_nonempty. Qed.

Lemma chars_no_text_part (s : string) : filter is_text_part (chars s) = [].
Proof. induction s as [|c s IH]; simpl; [reflexivity | exact IH]. Qed.

Lemma keys_no_text_part (d : dict) :
  filter is_text_part (map (fun kv => JStr (fst kv)) d) = [].
Proof. induction d as [|kv d IH]; simpl; [reflexivity | exact IH]. Qed.

(** A [content] that is no list: a string or an object is iterated
    without yielding any part, so the JSON dump comes back; [null], a
    boolean or a number cannot be iterated and [extract_text] raises
    [TypeError]. *)
Theorem extract_text_content_not_a_list (tool_result : dict) (v : json) :
  dict_get "content" tool_result = Some v ->
  match v with
  | JList _ => True
  | JStr _ | JDict _ =>
      extract_text tool_result = Ok (Fmt.json_dumps (JDict tool_result))
  | _ =>
      extract_text tool_result
      = Raise (TypeError ("'" ++ type_name v ++ "' object is not iterable"))
  end.
Proof.
  intros Hc; unfold extract_text, get_default; rewrite Hc.
  destruct v as [| | | |s|l|d]; simpl; auto.
  - rewrite chars_no_text_part; reflexivity.
  - rewrite keys_no_text_part; reflexivity.
Qed.

Lemma extract_text_never_empty_witness :
  extract_text [("content", JList [JDict [("type", JStr "text"); ("text", JStr "")]])]
  = Ok (Fmt.json_dumps
          (JDict [("content",
                   JList [JDict [("type", JStr "text"); ("text", JStr "")]])]))
  /\ Fmt.json_dumps
       (JDict [("content",
                JList [JDict [("type", JStr "text"); ("text", JStr "")]])])
     <> "".
Proof.
  split; [reflexivity|].
  apply (extract_text_never_empty
           [("content", JList [JDict [("type", JStr "text"); ("text", JStr "")]])]).
  reflexivity.
Defined.

Lemma extract_text_content_not_a_list_witness :
  extract_text [("content", JNull)]
  = Raise (TypeError "'NoneType' object is not iterable").
Proof.
  apply (extract_text_content_not_a_list [("content", JNull)] JNull).
  reflexivity.
Defined.

(** ** The loop, further *)

Lemma content_or_placeholder_nonempty (msg : chat_message) :
  content_or_placeholder msg <> "".
Proof.
  unfold content_or_placeholder.
  destruct (content msg) as [c|]; [|discriminate].
  destruct (String.eqb_spec c ""); [discriminate | assumption].
Qed.

Section AssistantFurther.

Variable json_loads : string -> result string json.
Variable http_post : request -> result string response.
Variable chat_create : chat_request -> result exn chat_message.
Variable OPENAI_MODEL : string.

Local Abbreviation call_tool' := (call_tool json_loads http_post).
Local Abbreviation run_tool_call' := (run_tool_call json_loads http_post).
Local Abbreviation run_tool_calls' := (run_tool_calls json_loads http_post).
Local Abbreviation tool_rounds' :=
  (tool_rounds json_loads http_post chat_create OPENAI_MODEL).
Local Abbreviation ask' := (ask json_loads http_post chat_create OPENAI_MODEL).

(** The client after [call_tool], written out. *)
Lemma call_tool_client (name : string) (arguments : json) (m : MCP) :
  snd (call_tool' name arguments m)
  = {| url := url m;
       _id := _id m + 1;
       http :=
         (http m
          ++ [ {| req_url := url m;
                  req_json :=
                    JDict [("jsonrpc", JStr "2.0"); ("id", JInt (_id m + 1));
                           ("method", JStr "tools/call");
                           ("params",
                            JDict [("name", JStr name);
                                   ("arguments", arguments)])];
                  req_headers :=
                    header_merge
                      [("Content-Type", "application/json");
                       ("Accept", "application/json, text/event-stream");
                       ("Connection", "keep-alive")]
                      (extra_headers m) |} ])%list;
       extra_headers := extra_headers m |}.
Proof.
  unfold call_tool, _rpc; simpl.
  match goal with
  | |- context [http_post ?r] => destruct (http_post r); reflexivity
  end.
Qed.

(** A first reply without tool calls ends the run at once: [ask] returns
    its text (or the placeholder) after this one completion call, and
    the protocol client is as it was, no request posted. *)
Theorem ask_without_tool_calls (question : string) (self : WeatherAssistant)
    (msg : chat_message) :
  chat_create (first_request OPENAI_MODEL question (oa_tools self)) = Ok msg ->
  requested_calls msg = [] ->
  ask' question self
  = (Ok (content_or_placeholder msg),
     {| client :=
          (client self
           ++ [first_request OPENAI_MODEL question (oa_tools self)])%list;
        mcp := mcp self;
        oa_tools := oa_tools self |}).
Proof.
  intros Hreply Hnone.
  unfold ask, create, first_request in *; rewrite Hreply.
  cbn [tool_rounds]; rewrite Hnone; reflexivity.
Qed.

Lemma tool_rounds_answer_nonempty (n : nat) (msg : chat_message)
    (messages : list message) (self : WeatherAssistant) (s : string) :
  fst (tool_rounds' n msg messages self) = Ok s -> s <> "".
Proof.
  revert msg messages self; induction n as [|n IH]; intros msg messages self.
  - simpl; intros H; injection H as <-; apply content_or_placeholder_nonempty.
  - cbn [tool_rounds].
    destruct (requested_calls msg) as [|tc tcs].
    + simpl; intros H; injection H as <-; apply content_or_placeholder_nonempty.
    + destruct (run_tool_calls' (tc :: tcs) (messages, mcp self)) as [ms1 m1].
      unfold create.
      match goal with
      | |- context [chat_create ?r] => destruct (chat_create r) as [msg'|e]
      end; [apply IH | discriminate].
Qed.

(** The answer of [ask] is never the empty string. *)
Theorem ask_never_returns_empty (question : string) (self : WeatherAssistant)
    (s : string) :
  fst (ask' question self) = Ok s -> s <> "".
Proof.
  unfold ask, create.
  match goal with
  | |- context [chat_create ?r] => destruct (chat_create r) as [msg|e]
  end; [apply tool_rounds_answer_nonempty | discriminate].
Qed.

Lemma tool_rounds_follow_ups (n : nat) (msg : chat_message)
    (messages : list message) (self : WeatherAssistant) (r0 : chat_request) :
  chat_create r0 = Ok msg ->
  messages = (cr_messages r0 ++ [BackendMsg msg])%list ->
  let out := tool_rounds' n msg messages self in
  oa_tools (snd out) = oa_tools self
  /\ exists reqs,
       client (snd out) = (client self ++ reqs)%list
       /\ follow_ups chat_create OPENAI_MODEL (oa_tools self) r0 reqs.
Proof.
  revert msg messages self r0; induction n as [|n IH];
    intros msg messages self r0 Hr0 Hms.
  - simpl; split; [reflexivity|].
    exists []; rewrite app_nil_r; split; [reflexivity | constructor].
  - cbn [tool_rounds].
    destruct (requested_calls msg) as [|tc tcs] eqn:Hcalls.
    { simpl; split; [reflexivity|].
      exists []; rewrite app_nil_r; split; [reflexivity | constructor]. }
    destruct (run_tool_calls_appends json_loads http_post (tc :: tcs)
                messages (mcp self)) as [outs [m1 [Hrun Hans]]].
    rewrite Hrun.
    unfold create; cbn [client mcp oa_tools].
    match goal with
    | |- context [chat_create ?r] =>
        set (req := r); destruct (chat_create req) as [msg'|e] eqn:Hreq
    end.
    + match goal with
      | |- context [tool_rounds' n msg' ?ms ?s] =>
          destruct (IH msg' ms s req Hreq eq_refl) as [Htools [reqs [Hc Hf]]]
      end.
      cbn [client oa_tools] in Hc, Hf, Htools.
      cbn zeta; split; [exact Htools|].
      exists (req :: reqs); split.
      * rewrite Hc, <- app_assoc; reflexivity.
      * apply (follow_ups_cons _ _ _ r0 req reqs msg outs); auto.
        -- rewrite Hcalls; discriminate.
        -- subst messages; unfold req; cbn [cr_messages].
           rewrite <- app_assoc; reflexivity.
        -- rewrite Hcalls; exact Hans.
    + cbn zeta; simpl; split; [reflexivity|].
      exists [req]; split; [reflexivity|].
      apply (follow_ups_cons _ _ _ r0 req [] msg outs); auto.
      * rewrite Hcalls; discriminate.
      * subst messages; unfold req; cbn [cr_messages].
        rewrite <- app_assoc; reflexivity.
      * rewrite Hcalls; exact Hans.
      * constructor.
Qed.

(** The conversation of one run.  [ask] starts from the system prompt
    and the question alone, whatever the assistant has been asked
    before; every later request is made with the same model and tools,
    without a tool choice, and carries the messages of the request
    before it, the reply to that request, and one Tool message per tool
    call the reply requested, in order.  The tools of the assistant are
    not changed. *)
Theorem ask_conversation (question : string) (self : WeatherAssistant) :
  let out := ask' question self in
  oa_tools (snd out) = oa_tools self
  /\ exists reqs,
       client (snd out)
       = (client self
          ++ first_request OPENAI_MODEL question (oa_tools self) :: reqs)%list
       /\ follow_ups chat_create OPENAI_MODEL (oa_tools self)
            (first_request OPENAI_MODEL question (oa_tools self)) reqs.
Proof.
  unfold ask, create; cbn [client mcp oa_tools].
  fold (first_request OPENAI_MODEL question (oa_tools self)).
  set (req := first_request OPENAI_MODEL question (oa_tools self)).
  destruct (chat_create req) as [msg|e] eqn:Hreq.
  - match goal with
    | |- context [tool_rounds' 2 msg ?ms ?s] =>
        destruct (tool_rounds_follow_ups 2 msg ms s req Hreq eq_refl)
          as [Htools [reqs [Hc Hf]]]
    end.
    cbn [client oa_tools] in Hc, Hf, Htools.
    cbn zeta; split; [exact Htools|].
    exists reqs; split; [|exact Hf].
    rewrite Hc, <- app_assoc; reflexivity.
  - cbn zeta; simpl; split; [reflexivity|].
    exists []; split; [reflexivity | constructor].
Qed.

(** One requested call, by cases on its argument string. *)
Lemma run_tool_call_cases (tc : tool_call) (messages : list message) (m : MCP) :
  (loadable json_loads tc = false
   /\ exists e,
        run_tool_call' tc (messages, m)
        = ((messages ++ [ToolMsg (tc_id tc) ("Bad args: " ++ e)])%list, m))
  \/ (loadable json_loads tc = true
      /\ exists fargs text,
           text <> ""
           /\ run_tool_call' tc (messages, m)
              = ((messages ++ [ToolMsg (tc_id tc) text])%list,
                 snd (call_tool' (tc_name tc) fargs m))).
Proof.
  unfold run_tool_call, loadable.
  destruct (json_loads (tc_arguments tc)) as [fargs|e].
  - right; split; [reflexivity|].
    destruct (call_tool' (tc_name tc) fargs m) as [r m'] eqn:E; simpl.
    assert (Hm' : snd (call_tool' (tc_name tc) fargs m) = m')
      by (rewrite E; reflexivity).
    destruct r as [res|e]; simpl.
    + destruct (extract_text res) as [t|e] eqn:Ht.
      * exists fargs, t; rewrite Hm'; split; [|reflexivity].
        apply (extract_text_ok_nonempty res t Ht).
      * eexists fargs, _; rewrite Hm'; split; [|reflexivity]; discriminate.
    + eexists fargs, _; rewrite Hm'; split; [|reflexivity]; discriminate.
  - left; split; [reflexivity|]; eauto.
Qed.



Lemma call_tool_ids_in_order (name : string) (arguments : json) (m : MCP) :
  ids_in_order m -> ids_in_order (snd (call_tool' name arguments m)).
Proof.
  unfold ids_in_order; intros [Hids Hc].
  rewrite call_tool_client; cbn [http _id].
  rewrite length_app, map_app, Hids; cbn [length map].
  split; [|lia].
  rewrite Nat.add_1_r, seq_S, map_app; cbn [map]; f_equal.
  unfold request_id; cbn [req_json dict_get String.eqb Ascii.eqb Bool.eqb].
  simpl; do 2 f_equal; lia.
Qed.

Lemma call_tool_log_grows (name : string) (arguments : json) (m : MCP) :
  url (snd (call_tool' name arguments m)) = url m
  /\ extra_headers (snd (call_tool' name arguments m)) = extra_headers m.
Proof. rewrite call_tool_client; split; reflexivity. Qed.

Lemma run_tool_calls_ids_in_order (tcs : list tool_call)
    (messages : list message) (m : MCP) :
  ids_in_order m ->
  let m' := snd (run_tool_calls' tcs (messages, m)) in
  ids_in_order m' /\ url m' = url m /\ extra_headers m' = extra_headers m.
Proof.
  revert messages m; induction tcs as [|tc tcs IH]; intros messages m Hm.
  - simpl; auto.
  - cbn [run_tool_calls fold_left].
    destruct (run_tool_call_cases tc messages m)
      as [[_ [e Hrun]] | [_ [fargs [text [_ Hrun]]]]];
      rewrite Hrun.
    + apply IH; exact Hm.
    + destruct (call_tool_log_grows (tc_name tc) fargs m) as [Hu Hx].
      destruct (IH (messages ++ [ToolMsg (tc_id tc) text])%list
                  (snd (call_tool' (tc_name tc) fargs m))
                  (call_tool_ids_in_order _ _ _ Hm)) as [H1 [H2 H3]].
      cbn zeta in H1, H2, H3; unfold run_tool_calls in H1, H2, H3.
      cbn zeta; rewrite H2, H3; auto.
Qed.

Lemma tool_rounds_ids_in_order (n : nat) (msg : chat_message)
    (messages : list message) (self : WeatherAssistant) :
  ids_in_order (mcp self) ->
  let m' := mcp (snd (tool_rounds' n msg messages self)) in
  ids_in_order m'
  /\ url m' = url (mcp self)
  /\ extra_headers m' = extra_headers (mcp self).
Proof.
  revert msg messages self; induction n as [|n IH]; intros msg messages self Hm.
  - simpl; auto.
  - cbn [tool_rounds].
    destruct (requested_calls msg) as [|tc tcs]; [simpl; auto|].
    pose proof (run_tool_calls_ids_in_order (tc :: tcs) messages (mcp self) Hm)
      as Hrun; cbn zeta in Hrun.
    destruct (run_tool_calls' (tc :: tcs) (messages, mcp self)) as [ms1 m1].
    cbn [snd] in Hrun; destruct Hrun as [H1 [H2 H3]].
    unfold create; cbn [client mcp oa_tools].
    match goal with
    | |- context [chat_create ?r] => destruct (chat_create r) as [msg'|e]
    end.
    + match goal with
      | |- context [tool_rounds' n msg' ?ms ?s] =>
          destruct (IH msg' ms s H1) as [G1 [G2 G3]]
      end.
      cbn zeta in G1, G2, G3; cbn [mcp] in G2, G3.
      cbn zeta; rewrite G2, G3; auto.
    + cbn zeta; simpl; auto.
Qed.

(** [ask] keeps the request ids of the protocol client in order: if the
    requests posted before carry 1, 2, ... and the counter stands on the
    last, the same holds after the run, with the requests of the run
    numbered on from there.  The URL and the extra headers of the client
    are not touched. *)
Theorem ask_keeps_ids_in_order (question : string) (self : WeatherAssistant) :
  ids_in_order (mcp self) ->
  let m' := mcp (snd (ask' question self)) in
  ids_in_order m'
  /\ url m' = url (mcp self)
  /\ extra_headers m' = extra_headers (mcp self).
Proof.
  intros Hm; unfold ask, create; cbn [client mcp oa_tools].
  match goal with
  | |- context [chat_create ?r] => destruct (chat_create r) as [msg|e]
  end.
  - match goal with
    | |- context [tool_rounds' 2 msg ?ms ?s] =>
        apply (tool_rounds_ids_in_order 2 msg ms s Hm)
    end.
  - cbn zeta; simpl; auto.
Qed.

End AssistantFurther.

Lemma ask_without_tool_calls_witness :
  ask sample_loads unreachable (plain_backend "Sunny in Oslo.") "gpt-4o-mini"
      "Weather in Oslo?" assistant0
  = (Ok "Sunny in Oslo.",
     {| client := [first_request "gpt-4o-mini" "Weather in Oslo?" []];
        mcp := MCP_init XW_MCP None;
        oa_tools := [] |}).
Proof.
  apply (ask_without_tool_calls sample_loads unreachable
           (plain_backend "Sunny in Oslo.") "gpt-4o-mini" "Weather in Oslo?"
           assistant0 {| content := Some "Sunny in Oslo."; tool_calls := None |}).
  - reflexivity.
  - reflexivity.
Defined.

Lemma ask_never_returns_empty_witness :
  fst (ask sample_loads unreachable (plain_backend "") "gpt-4o-mini"
         "Weather in Oslo?" assistant0)
  = Ok "(no content)"
  /\ "(no content)" <> "".
Proof.
  split; [reflexivity|].
  apply (ask_never_returns_empty sample_loads unreachable (plain_backend "")
           "gpt-4o-mini" "Weather in Oslo?" assistant0).
  reflexivity.
Defined.

Lemma ask_keeps_ids_in_order_witness :
  ids_in_order (mcp (snd eager_run))
  /\ url (mcp (snd eager_run)) = XW_MCP
  /\ extra_headers (mcp (snd eager_run)) = [].
Proof.
  apply (ask_keeps_ids_in_order sample_loads unreachable eager_backend
           "gpt-4o-mini" "Weather in Oslo?" assistant0).
  split; reflexivity.
Defined.

(** ** Bootstrap *)

Lemma to_openai_tools_ok_names (mcp_tools out : list json) :
  to_openai_tools mcp_tools = Ok out ->
  map tool_name out = filter truthy (map descriptor_name mcp_tools).
Proof.
  revert out; induction mcp_tools as [|t rest IH]; intros out.
  - simpl; intros H; injection H as <-; reflexivity.
  - destruct t as [| | | | | |d]; try discriminate.
    cbn [to_openai_tools map descriptor_name filter].
    destruct (truthy (get "name" d)).
    + destruct (to_openai_tools rest) as [out'|e]; [|discriminate].
      simpl; intros H; injection H as <-.
      simpl; f_equal; apply IH; reflexivity.
    + apply IH.
Qed.

Section BootstrapProperties.

Variable json_loads : string -> result string json.
Variable http_post : request -> result string response.
Variable XW_ID : string.
Variable XW_SECRET : string.

Local Abbreviation list_tools' := (list_tools json_loads http_post).
Local Abbreviation token := (XW_TOKEN XW_ID XW_SECRET).
Local Abbreviation header_client' := (header_client XW_ID XW_SECRET).
Local Abbreviation query_client' := (query_client XW_ID XW_SECRET).
Local Abbreviation build_clients' :=
  (build_clients json_loads http_post XW_ID XW_SECRET).

(** The client after [list_tools], written out. *)
Lemma list_tools_client (m : MCP) :
  snd (list_tools' m)
  = {| url := url m;
       _id := _id m + 1;
       http :=
         (http m
          ++ [ {| req_url := url m;
                  req_json :=
                    JDict [("jsonrpc", JStr "2.0"); ("id", JInt (_id m + 1));
                           ("method", JStr "tools/list"); ("params", JDict [])];
                  req_headers :=
                    header_merge
                      [("Content-Type", "application/json");
                       ("Accept", "application/json, text/event-stream");
                       ("Connection", "keep-alive")]
                      (extra_headers m) |} ])%list;
       extra_headers := extra_headers m |}.
Proof.
  unfold list_tools, _rpc; simpl.
  match goal with
  | |- context [http_post ?r] => destruct (http_post r) as [resp|msg]; simpl
  end; [|reflexivity].
  destruct (_rpc_response json_loads resp) as [res|e]; [|reflexivity].
  destruct (get_default "tools" (JList []) res); reflexivity.
Qed.

(** What [build_clients] returns.  The client has posted exactly one
    request, the [tools/list] that succeeded, under id 1.  Either that
    was the attempt with the bearer token in the [Authorization] header
    against the base URL, or that attempt failed and the client is the
    second one, whose URL carries the token as [api_key] and whose
    request has no [Authorization] header. *)
Theorem build_clients_result (c : MCP) (tools : list json) (mode : string) :
  build_clients' = Ok (c, tools, mode) ->
  ids_in_order c
  /\ exists req,
       http c = [req]
       /\ request_id req = Some 1%Z
       /\ request_field "method" req = Some (JStr "tools/list")
       /\ ((mode = "header"
            /\ fst (list_tools' header_client') = Ok tools
            /\ req_url req = XW_MCP
            /\ header_get "Authorization" (req_headers req)
               = Some ("Bearer " ++ token))
           \/ (mode = "query"
               /\ (exists e, fst (list_tools' header_client') = Raise e)
               /\ fst (list_tools' query_client') = Ok tools
               /\ req_url req = XW_MCP ++ "?api_key=" ++ token
               /\ header_get "Authorization" (req_headers req) = None)).
Proof.
  unfold build_clients.
  pose proof (list_tools_client header_client') as Hh.
  pose proof (list_tools_client query_client') as Hq.
  destruct (list_tools' header_client') as [[tools1|e1] c1]; cbn [snd] in Hh.
  - intros H; injection H as <- <- <-; rewrite Hh.
    split; [split; reflexivity|].
    eexists; split; [reflexivity|]; repeat split.
    left; repeat split.
  - destruct (list_tools' query_client') as [[tools2|e2] c2]; cbn [snd] in Hq;
      [|discriminate].
    intros H; injection H as <- <- <-; rewrite Hq.
    split; [split; reflexivity|].
    eexists; split; [reflexivity|]; repeat split.
    right; repeat split.
    exists e1; reflexivity.
Qed.

(** [build_clients] fails exactly when both attempts fail, and then with
    the exception of the second attempt; the exception of the first
    attempt is dropped. *)
Theorem build_clients_failure (e : exn) :
  build_clients' = Raise e
  <-> (exists e1, fst (list_tools' header_client') = Raise e1)
      /\ fst (list_tools' query_client') = Raise e.
Proof.
  unfold build_clients.
  destruct (list_tools' header_client') as [[tools1|e1] c1]; cbn [fst].
  - split; [discriminate | intros [[e1 H] _]; discriminate].
  - destruct (list_tools' query_client') as [[tools2|e2] c2]; cbn [fst].
    + split; [discriminate | intros [_ H]; discriminate].
    + split.
      * intros H; injection H as <-; eauto.
      * intros [_ H]; injection H as <-; reflexivity.
Qed.

(** A constructed assistant has made no completion call, holds a client
    whose only request is the [tools/list] of the bootstrap (so the ids
    of its tool calls start at 2), and offers the backend one function
    tool per listed descriptor with a truthy name, under that name. *)
Theorem assistant_after_init (bot : WeatherAssistant) :
  WeatherAssistant_init json_loads http_post XW_ID XW_SECRET = Ok bot ->
  client bot = []
  /\ ids_in_order (mcp bot)
  /\ _id (mcp bot) = 1%Z
  /\ exists tools mode,
       build_clients' = Ok (mcp bot, tools, mode)
       /\ map tool_name (oa_tools bot)
          = filter truthy (map descriptor_name tools).
Proof.
  unfold WeatherAssistant_init.
  pose proof (list_tools_client header_client') as Hh.
  pose proof (list_tools_client query_client') as Hq.
  destruct build_clients' as [[[c tools] mode]|e] eqn:Hb; [|discriminate].
  cbn [bind].
  destruct (to_openai_tools tools) as [tools'|e] eqn:Ht; [|discriminate].
  cbn [bind]; intros H; injection H as <-; cbn [client mcp oa_tools].
  assert (Hc : c = snd (list_tools' header_client')
               \/ c = snd (list_tools' query_client')).
  { unfold build_clients in Hb.
    destruct (list_tools' header_client') as [[t1|e1] c1].
    - injection Hb as <- _ _; left; reflexivity.
    - destruct (list_tools' query_client') as [[t2|e2] c2]; [|discriminate].
      injection Hb as <- _ _; right; reflexivity. }
  split; [reflexivity|].
  split; [destruct Hc as [-> | ->]; [rewrite Hh | rewrite Hq]; split; reflexivity|].
  split; [destruct Hc as [-> | ->]; [rewrite Hh | rewrite Hq]; reflexivity|].
  exists tools, mode; split; [reflexivity|].
  apply to_openai_tools_ok_names; exact Ht.
Qed.

End BootstrapProperties.

Lemma build_clients_result_witness :
  exists c tools,
    build_clients catalog_loads query_only "id" "secret" = Ok (c, tools, "query")
    /\ ids_in_order c
    /\ tools = [JDict [("name", JStr "get_weather")]].
Proof.
  eexists; eexists; split; [reflexivity|].
  split; [|reflexivity].
  apply (build_clients_result catalog_loads query_only "id" "secret"
           _ [JDict [("name", JStr "get_weather")]] "query" eq_refl).
Defined.

Lemma assistant_after_init_witness :
  exists bot,
    WeatherAssistant_init catalog_loads query_only "id" "secret" = Ok bot
    /\ client bot = []
    /\ _id (mcp bot) = 1%Z
    /\ map tool_name (oa_tools bot) = [JStr "get_weather"].
Proof.
  eexists; split; [reflexivity|].
  destruct (assistant_after_init catalog_loads query_only "id" "secret" _ eq_refl)
    as [Hc [_ [Hid _]]].
  split; [exact Hc|]; split; [exact Hid | reflexivity].
Defined.
